(** * BookingHub: roles, row-level policies and the booking life cycle

    A shallow embedding of the part of the application that decides who may
    read or write which row and how a booking is priced and decided:

    - the SQL migration (enums, tables, [has_role], [get_user_role], the
      row-level-security policies, [handle_new_user],
      [update_updated_at_column]);
    - the client code that talks to those tables ([calculateTotalPrice] and
      [handleBooking] of the listing page, [handleSubmit] behind the role gate
      of the create-listing page, [fetchListings] of the home page,
      [fetchDashboardData] and [handleBookingAction] of the dashboard).

    Tables are lists of rows; a statement either yields the new database or a
    PostgreSQL error, and a failed statement leaves the database as it was. *)

From Stdlib Require Import QArith Qround.
From stdpp Require Import base decidable option list strings numbers sorting.

Local Open Scope Z_scope.

(** ** Scalars *)

(** [UUID] values are opaque identifiers. *)
Definition uuid := N.

(** [TIMESTAMP WITH TIME ZONE]: microseconds since the epoch. *)
Definition timestamptz := Z.

(** A [DECIMAL(10,2)] value, counted in hundredths. *)
Definition numeric := Z.

Definition dollars (n : Z) : numeric := 100 * n.

(** A [DATE] column and the value of an [<input type="date">]: the three
    fields of the string [year-month-day]. *)
Record Date := mkDate { year : Z; month : Z; day : Z }.

(** A JavaScript number, kept as the expression that produced it.  The
    arithmetic of doubles rounds, so no law of exact arithmetic is assumed
    for [num_mul] and [num_add]: two numbers are known to be equal when they
    are the same expression.  [num_int] is an integer-valued double (a
    literal, a count, a result of [Math.ceil]); [num_decimal] is the double
    read from a [DECIMAL(10,2)] value of a JSON response. *)
Inductive number :=
  | num_NaN
  | num_int (z : Z)
  | num_decimal (x : numeric)
  | num_mul (a b : number)
  | num_add (a b : number).

(** The real number an expression stands for when nothing is rounded; NaN
    has none.  A double holds this value up to the rounding of each
    operation. *)
Fixpoint number_value (n : number) : option Q :=
  match n with
  | num_NaN => None
  | num_int z => Some (inject_Z z)
  | num_decimal x => Some (Qmake x 100)
  | num_mul a b =>
      match number_value a, number_value b with
      | Some a', Some b' => Some (Qmult a' b')
      | _, _ => None
      end
  | num_add a b =>
      match number_value a, number_value b with
      | Some a', Some b' => Some (Qplus a' b')
      | _, _ => None
      end
  end.

(** Rounding to the nearest integer, halves away from zero, as PostgreSQL
    rounds a value to the scale of its column. *)
Definition round_half_away (q : Q) : Z :=
  if Qle_bool 0 q then Qfloor (Qplus q (Qmake 1 2))
  else Qceiling (Qminus q (Qmake 1 2)).

(** ** Enumerations of the migration *)

Inductive app_role := admin | subadmin | user.
Inductive listing_type := hotel | trip | car.
Inductive booking_status := pending | accepted | rejected.

#[global] Instance app_role_eq_dec : EqDecision app_role.
Proof. solve_decision. Defined.
#[global] Instance listing_type_eq_dec : EqDecision listing_type.
Proof. solve_decision. Defined.
#[global] Instance booking_status_eq_dec : EqDecision booking_status.
Proof. solve_decision. Defined.
#[global] Instance Date_eq_dec : EqDecision Date.
Proof. solve_decision. Defined.

(** ** Tables *)

(** The columns of [auth.users] that the migration reads: [id], [email] and
    [raw_user_meta_data ->> 'full_name']. *)
Record auth_user := mkAuthUser {
  au_id : uuid;
  au_email : option string;
  au_full_name : option string
}.

Record profile := mkProfile {
  p_id : uuid;
  p_user_id : uuid;
  p_full_name : string;
  p_email : string;
  p_phone : option string;
  p_created_at : timestamptz;
  p_updated_at : timestamptz
}.

Record user_role := mkUserRole {
  ur_id : uuid;
  ur_user_id : uuid;
  ur_role : app_role;
  ur_created_at : timestamptz
}.

Record listing := mkListing {
  l_id : uuid;
  l_owner_id : uuid;
  l_type : listing_type;
  l_title : string;
  l_description : option string;
  l_price : numeric;
  l_location : string;
  l_image_url : option string;
  l_amenities : option (list string);
  l_available_from : option Date;
  l_available_to : option Date;
  l_max_guests : option Z;
  l_is_active : option bool;
  l_created_at : timestamptz;
  l_updated_at : timestamptz
}.

Record booking := mkBooking {
  b_id : uuid;
  b_user_id : uuid;
  b_listing_id : uuid;
  b_check_in : Date;
  b_check_out : Date;
  b_guests : Z;
  b_total_price : numeric;
  b_status : booking_status;
  b_special_requests : option string;
  b_admin_notes : option string;
  b_created_at : timestamptz;
  b_updated_at : timestamptz
}.

Record database := mkDatabase {
  auth_users : list auth_user;
  profiles : list profile;
  user_roles : list user_role;
  listings : list listing;
  bookings : list booking
}.

#[global] Instance listing_eq_dec : EqDecision listing.
Proof. solve_decision. Defined.
#[global] Instance booking_eq_dec : EqDecision booking.
Proof. solve_decision. Defined.

(** ** Statement results *)

Inductive pg_error :=
  | numeric_value_out_of_range
  | insufficient_privilege
  | not_null_violation
  | unique_violation
  | foreign_key_violation.

Inductive result (A : Type) :=
  | Ok (a : A)
  | Err (e : pg_error).
Arguments Ok {A} a.
Arguments Err {A} e.

#[global] Instance result_ret : MRet result := fun _ a => Ok a.
#[global] Instance result_bind : MBind result := fun _ _ f m =>
  match m with Ok a => f a | Err e => Err e end.

(** [check c e] fails with [e] unless the condition [c] holds. *)
Definition check (c : bool) (e : pg_error) : result unit :=
  if c then Ok tt else Err e.

(** A statement sent by the client: its error, if any, and the database
    afterwards (unchanged when the statement failed). *)
Definition run (stmt : database -> result database) (db : database)
  : option pg_error * database :=
  match stmt db with
  | Ok db' => (None, db')
  | Err e => (Some e, db)
  end.

(** Ranges of the column types. *)
Definition fits_numeric_10_2 (x : numeric) : bool :=
  bool_decide (Z.abs x < 10 ^ 10).
Definition fits_integer (x : Z) : bool :=
  bool_decide (- 2 ^ 31 <= x < 2 ^ 31).

(** A JavaScript number sent for a [DECIMAL(10,2)] column.  NaN is sent as
    JSON [null].  Any other number is sent as its decimal text, which
    PostgreSQL rounds to two decimals and refuses when the rounded value
    does not fit the column.  The one number the pages send is the product
    of an integer and a two-decimal value: the double product is within
    2^-52 of the exact product, relatively, so where the exact product is in
    the range of the column the two round to the same hundredths, and where
    it is not, both are refused.  Sums are displayed and never sent. *)
Definition to_numeric (n : number) : result (option numeric) :=
  match number_value n with
  | None => Ok None
  | Some q =>
      let x := round_half_away (Qmult q (inject_Z 100)) in
      if fits_numeric_10_2 x then Ok (Some x)
      else Err numeric_value_out_of_range
  end.

(** ** Role functions of the migration *)

(** [has_role]: [SELECT EXISTS (SELECT 1 FROM user_roles WHERE user_id =
    _user_id AND role = _role)].  [_user_id] is [auth.uid()], which is NULL
    for an anonymous caller; a NULL never equals a [user_id]. *)
Definition has_role (db : database) (_user_id : option uuid) (_role : app_role)
  : bool :=
  existsb (fun r => bool_decide (Some (ur_user_id r) = _user_id)
                    && bool_decide (ur_role r = _role))
          (user_roles db).

(** The [CASE role WHEN 'admin' THEN 1 WHEN 'subadmin' THEN 2 WHEN 'user'
    THEN 3 END] of [get_user_role]. *)
Definition role_rank (r : app_role) : Z :=
  match r with
  | admin => 1
  | subadmin => 2
  | user => 3
  end.

Definition by_role_rank (a b : user_role) : Prop :=
  role_rank (ur_role a) <= role_rank (ur_role b).

#[global] Instance by_role_rank_dec a b : Decision (by_role_rank a b).
Proof. unfold by_role_rank. apply _. Defined.

(** [get_user_role]: [SELECT role FROM user_roles WHERE user_id = _user_id
    ORDER BY CASE ... END LIMIT 1].  A query without rows yields NULL. *)
Definition get_user_role (db : database) (_user_id : uuid) : option app_role :=
  ur_role <$>
    head (merge_sort by_role_rank
            (filter (fun r => ur_user_id r = _user_id) (user_roles db))).

(** The roles assigned to a principal, in table order. *)
Definition roles_of (db : database) (p : uuid) : list app_role :=
  ur_role <$> filter (fun r => ur_user_id r = p) (user_roles db).

(** The (principal, role) pairs of [user_roles], the columns of its
    [UNIQUE(user_id, role)] constraint. *)
Definition role_pairs (db : database) : list (uuid * app_role) :=
  (fun r => (ur_user_id r, ur_role r)) <$> user_roles db.

(** ** Row-level-security policies

    Permissive policies of one table and command are combined with OR.  A
    [FOR ALL] policy without [WITH CHECK] uses its [USING] expression for the
    rows written as well.  [uid] is [auth.uid()]. *)

(** "Anyone can view active listings", "Owners can manage their listings",
    "Admins can manage all listings". *)
Definition listings_select_policy (db : database) (uid : option uuid)
    (l : listing) : bool :=
  bool_decide (l_is_active l = Some true)
  || bool_decide (uid = Some (l_owner_id l))
  || has_role db uid admin.

(** INSERT, UPDATE and DELETE on listings: the two [FOR ALL] policies. *)
Definition listings_write_policy (db : database) (uid : option uuid)
    (l : listing) : bool :=
  bool_decide (uid = Some (l_owner_id l))
  || has_role db uid admin.

(** [EXISTS (SELECT 1 FROM listings WHERE listings.id = bookings.listing_id
    AND listings.owner_id = auth.uid())]; the sub-select runs as the caller
    and sees the listings that [listings_select_policy] lets through. *)
Definition owns_listing_of (db : database) (uid : option uuid) (b : booking)
  : bool :=
  existsb (fun l => bool_decide (l_id l = b_listing_id b)
                    && bool_decide (Some (l_owner_id l) = uid))
          (filter (fun l => listings_select_policy db uid l = true)
                  (listings db)).

(** "Users can view their own bookings", "Listing owners can view bookings
    for their listings", "Admins can view all bookings". *)
Definition bookings_select_policy (db : database) (uid : option uuid)
    (b : booking) : bool :=
  bool_decide (uid = Some (b_user_id b))
  || owns_listing_of db uid b
  || has_role db uid admin.

(** "Users can create bookings": [WITH CHECK (auth.uid() = user_id)]. *)
Definition bookings_insert_policy (uid : option uuid) (user_id : uuid)
  : bool :=
  bool_decide (uid = Some user_id).

(** "Listing owners can update bookings for their listings", "Admins can
    update all bookings". *)
Definition bookings_update_policy (db : database) (uid : option uuid)
    (b : booking) : bool :=
  owns_listing_of db uid b
  || has_role db uid admin.

(** ** Statements *)

(** Functional updates of one table. *)
Definition with_profiles (db : database) (ps : list profile) : database :=
  mkDatabase (auth_users db) ps (user_roles db) (listings db) (bookings db).
Definition with_user_roles (db : database) (rs : list user_role) : database :=
  mkDatabase (auth_users db) (profiles db) rs (listings db) (bookings db).
Definition with_listings (db : database) (ls : list listing) : database :=
  mkDatabase (auth_users db) (profiles db) (user_roles db) ls (bookings db).
Definition with_bookings (db : database) (bs : list booking) : database :=
  mkDatabase (auth_users db) (profiles db) (user_roles db) (listings db) bs.

Definition references_auth_users (db : database) (id : uuid) : bool :=
  bool_decide (id ∈ au_id <$> auth_users db).

(** [INSERT INTO listings] as the caller [uid].  Values are coerced to their
    column types, the written row is checked against the policies, then the
    primary key and the foreign key. *)
Definition insert_listing (uid : option uuid) (row : listing) (db : database)
  : result database :=
  _ ← check (fits_numeric_10_2 (l_price row)
             && from_option fits_integer true (l_max_guests row))
            numeric_value_out_of_range;
  _ ← check (listings_write_policy db uid row) insufficient_privilege;
  _ ← check (bool_decide (l_id row ∉ l_id <$> listings db)) unique_violation;
  _ ← check (references_auth_users db (l_owner_id row)) foreign_key_violation;
  Ok (with_listings db (listings db ++ [row])).

(** The values of an [INSERT INTO bookings]: [guests] may arrive as JSON
    [null] (a NaN), [total_price] is the JavaScript number the page sends;
    the columns left out take their defaults. *)
Record booking_values := mkBookingValues {
  bv_user_id : uuid;
  bv_listing_id : uuid;
  bv_check_in : Date;
  bv_check_out : Date;
  bv_guests : option Z;
  bv_total_price : number;
  bv_special_requests : option string
}.

(** The row built from the values, [gen_random_uuid()], [now()] and the
    column defaults ([status] is ['pending'], [admin_notes] is NULL). *)
Definition booking_row (new_id : uuid) (now : timestamptz) (v : booking_values)
    (guests : Z) (total_price : numeric) : booking :=
  mkBooking new_id (bv_user_id v) (bv_listing_id v) (bv_check_in v)
            (bv_check_out v) guests total_price pending
            (bv_special_requests v) None now now.

Definition insert_booking (uid : option uuid) (new_id : uuid)
    (now : timestamptz) (v : booking_values) (db : database)
  : result database :=
  total_price ← to_numeric (bv_total_price v);
  _ ← check (from_option fits_integer true (bv_guests v))
            numeric_value_out_of_range;
  _ ← check (bookings_insert_policy uid (bv_user_id v)) insufficient_privilege;
  match bv_guests v, total_price with
  | None, _ | _, None => Err not_null_violation
  | Some guests, Some total_price =>
      let row := booking_row new_id now v guests total_price in
      _ ← check (bool_decide (b_id row ∉ b_id <$> bookings db))
                unique_violation;
      _ ← check (references_auth_users db (b_user_id row)
                 && bool_decide (b_listing_id row ∈ l_id <$> listings db))
                foreign_key_violation;
      Ok (with_bookings db (bookings db ++ [row]))
  end.

(** [update_updated_at_column], the [BEFORE UPDATE] trigger of bookings. *)
Definition update_updated_at_column (now : timestamptz) (NEW : booking)
  : booking :=
  mkBooking (b_id NEW) (b_user_id NEW) (b_listing_id NEW) (b_check_in NEW)
            (b_check_out NEW) (b_guests NEW) (b_total_price NEW)
            (b_status NEW) (b_special_requests NEW) (b_admin_notes NEW)
            (b_created_at NEW) now.

Definition set_status (status : booking_status) (b : booking) : booking :=
  mkBooking (b_id b) (b_user_id b) (b_listing_id b) (b_check_in b)
            (b_check_out b) (b_guests b) (b_total_price b)
            status (b_special_requests b) (b_admin_notes b)
            (b_created_at b) (b_updated_at b).

(** One row of [UPDATE bookings SET status = ... WHERE id = ...] as [uid]:
    a row is touched when it matches, is visible to the caller and passes
    the UPDATE policies; rows that do not are skipped without an error.  The
    new row is checked against the same policies. *)
Definition update_booking_row (db : database) (uid : option uuid)
    (bookingId : uuid) (status : booking_status) (now : timestamptz)
    (b : booking) : result booking :=
  if bool_decide (b_id b = bookingId)
     && bookings_select_policy db uid b
     && bookings_update_policy db uid b
  then
    let b' := update_updated_at_column now (set_status status b) in
    _ ← check (bookings_update_policy db uid b') insufficient_privilege;
    Ok b'
  else Ok b.

Fixpoint update_rows (f : booking -> result booking) (bs : list booking)
  : result (list booking) :=
  match bs with
  | [] => Ok []
  | b :: bs =>
      b' ← f b;
      bs' ← update_rows f bs;
      Ok (b' :: bs')
  end.

Definition update_booking_status (uid : option uuid) (bookingId : uuid)
    (status : booking_status) (now : timestamptz) (db : database)
  : result database :=
  bs ← update_rows (update_booking_row db uid bookingId status now)
                   (bookings db);
  Ok (with_bookings db bs).

(** [handle_new_user], the [AFTER INSERT ON auth.users] trigger function.
    It is [SECURITY DEFINER], so no policy applies.  [profile_id] and
    [role_id] are the two [gen_random_uuid()] defaults. *)
Definition handle_new_user (NEW : auth_user) (profile_id role_id : uuid)
    (now : timestamptz) (db : database) : result database :=
  (* INSERT INTO profiles (user_id, full_name, email) *)
  match au_email NEW with
  | None => Err not_null_violation
  | Some email =>
      let p := mkProfile profile_id (au_id NEW)
                 (default "User"%string (au_full_name NEW)) email None now now
      in
      _ ← check (bool_decide (p_id p ∉ p_id <$> profiles db)
                 && bool_decide (p_user_id p ∉ p_user_id <$> profiles db))
                unique_violation;
      _ ← check (references_auth_users db (p_user_id p))
                foreign_key_violation;
      let db1 := with_profiles db (profiles db ++ [p]) in
      (* INSERT INTO user_roles (user_id, role) VALUES (NEW.id, 'user') *)
      let r := mkUserRole role_id (au_id NEW) user now in
      _ ← check (bool_decide (ur_id r ∉ ur_id <$> user_roles db1)
                 && bool_decide ((ur_user_id r, ur_role r) ∉ role_pairs db1))
                unique_violation;
      _ ← check (references_auth_users db1 (ur_user_id r))
                foreign_key_violation;
      Ok (with_user_roles db1 (user_roles db1 ++ [r]))
  end.

(** ** Client code *)

(** The signed-in user of the auth context; [u_id] is what [auth.uid()]
    returns for the requests of this session. *)
Record User := mkUser { u_id : uuid; u_email : string }.

(** The civil (proleptic Gregorian) calendar: leap years, the length of a
    month, the dates that exist, and the day after a date. *)
Definition is_leap (y : Z) : bool :=
  (y mod 4 =? 0) && negb (y mod 100 =? 0) || (y mod 400 =? 0).

Definition days_in_month (y m : Z) : Z :=
  if (m =? 2) then (if is_leap y then 29 else 28)
  else if (m =? 4) || (m =? 6) || (m =? 9) || (m =? 11) then 30
  else 31.

Definition valid_date (d : Date) : bool :=
  (1 <=? month d) && (month d <=? 12)
  && (1 <=? day d) && (day d <=? days_in_month (year d) (month d)).

Definition next_day (d : Date) : Date :=
  if day d <? days_in_month (year d) (month d)
  then mkDate (year d) (month d) (day d + 1)
  else if month d <? 12 then mkDate (year d) (month d + 1) 1
  else mkDate (year d + 1) 1 1.

(** The date [n] days after [d]. *)
Definition add_days (n : nat) (d : Date) : Date := Nat.iter n next_day d.

(** The date-only form [YYYY-MM-DD] of the ECMAScript date-time string
    format: an existing date with a year of four digits. *)
Definition iso_date_only (d : Date) : bool :=
  (0 <=? year d) && (year d <=? 9999) && valid_date d.

(** The day number of a civil date: days since 1970-01-01. *)
Definition days_from_civil (d : Date) : Z :=
  let y := if bool_decide (month d <= 2) then year d - 1 else year d in
  let era := y / 400 in
  let yoe := y - era * 400 in
  let mp := if bool_decide (month d > 2) then month d - 3 else month d + 9 in
  let doy := (153 * mp + 2) / 5 + day d - 1 in
  let doe := yoe * 365 + yoe / 4 - yoe / 100 + doy in
  era * 146097 + doe - 719468.

(** The time values of the dates a date input can hold: none is more than
    a day (of time zone) before the year 0, and 8.64e15 is the largest time
    value a [Date] has. *)
Definition date_input_time (t : Z) : bool :=
  (days_from_civil (mkDate 0 1 1) * 86400000 - 86400000 <=? t)
  && (t <=? 8640000000000000).

(** [new Date(s).getTime()] for the value [s] of a date input.  A string in
    the date-only form is midnight UTC of that date.  Any other string (a
    year of five or more digits, for one) is left to the parser of the
    engine, which may read it as local time or reject it: [fallback] gives
    the time value it yields, [None] for NaN; a value that is the time of
    no date the input can hold counts as NaN. *)
Definition getTime (fallback : Date -> option Z) (d : Date) : option Z :=
  if iso_date_only d then Some (days_from_civil d * 86400000)
  else t ← fallback d; if date_input_time t then Some t else None.

(** [x || null] on a string. *)
Definition or_null (s : string) : option string :=
  if bool_decide (s = EmptyString) then None else Some s.

(** *** Listing page *)

(** The difference of two dates in days: the quotient
    [diffTime / (1000 * 60 * 60 * 24)] that [calculateTotalPrice] rounds
    up; none when a date is NaN. *)
Definition dateDiffInDays (fallback : Date -> option Z)
    (checkOut checkIn : Date) : option Q :=
  match getTime fallback checkIn, getTime fallback checkOut with
  | Some startDate, Some endDate =>
      Some (inject_Z (Z.abs (endDate - startDate))
            / inject_Z (1000 * 60 * 60 * 24))%Q
  | _, _ => None
  end.

(** [calculateTotalPrice].  An empty date input is [None].  The two time
    values are less than 2^53 apart, so [diffTime] is exact; its quotient by
    the milliseconds of a day is below 2^27, where the double of a number
    is within 2^-27 of it, which is less than 1/86400000: the double
    quotient is an integer only if the quotient is, and [Math.ceil] yields
    the ceiling of the quotient.  An invalid date makes every step NaN. *)
Definition calculateTotalPrice (fallback : Date -> option Z)
    (listing : option listing) (checkIn checkOut : option Date) : number :=
  match listing, checkIn, checkOut with
  | Some listing, Some checkIn, Some checkOut =>
      match getTime fallback checkIn, getTime fallback checkOut with
      | Some startDate, Some endDate =>
          let diffTime := Z.abs (endDate - startDate) in
          let diffDays :=
            Qceiling (inject_Z diffTime / inject_Z (1000 * 60 * 60 * 24)) in
          num_mul (num_int diffDays) (num_decimal (l_price listing))
      | _, _ => num_NaN
      end
  | _, _, _ => num_int 0
  end.

Inductive booking_toast :=
  | PleaseSignIn
  | PleaseSelectDates
  | BookingSubmitted
  | FailedToCreateBooking.

(** [handleBooking].  [guests] is the component state set by
    [setGuests(parseInt(e.target.value))]: any integer, or NaN ([None]),
    which is sent as JSON [null]; [total_price] is the number
    [calculateTotalPrice] returned. *)
Definition handleBooking (fallback : Date -> option Z) (usr : option User)
    (listing : option listing) (checkIn checkOut : option Date)
    (guests : option Z) (specialRequests : string) (new_id : uuid)
    (now : timestamptz) (db : database) : booking_toast * database :=
  match usr, listing with
  | Some usr, Some listing =>
      match checkIn, checkOut with
      | Some check_in, Some check_out =>
          let totalPrice :=
            calculateTotalPrice fallback (Some listing) checkIn checkOut in
          let values :=
            mkBookingValues (u_id usr) (l_id listing) check_in check_out
                            guests totalPrice
                            (or_null specialRequests) in
          match run (insert_booking (Some (u_id usr)) new_id now values) db with
          | (None, db') => (BookingSubmitted, db')
          | (Some _, db') => (FailedToCreateBooking, db')
          end
      | _, _ => (PleaseSelectDates, db)
      end
  | _, _ => (PleaseSignIn, db)
  end.

(** *** Create-listing page *)

(** The form state.  A select or a number or date input that is still empty
    is [None]; text inputs are strings. *)
Record formData := mkFormData {
  fd_type : option listing_type;
  fd_title : string;
  fd_description : string;
  fd_location : string;
  fd_price : option numeric;
  fd_image_url : string;
  fd_max_guests : option Z;
  fd_available_from : option Date;
  fd_available_to : option Date
}.

Inductive create_outcome :=
  | AccessDenied
  | RequiredFieldsMissing
  | ListingCreated
  | FailedToCreateListing.

(** [amenities.length > 0 ? amenities : null]. *)
Definition amenities_or_null (amenities : list string)
  : option (list string) :=
  if bool_decide (0 < length amenities)%nat then Some amenities else None.

(** [handleSubmit]: the required-field test, then [listingData] and its
    insert. *)
Definition handleSubmit (usr : User) (fd : formData) (amenities : list string)
    (new_id : uuid) (now : timestamptz) (db : database)
  : create_outcome * database :=
  match fd_type fd, fd_price fd with
  | Some type, Some price =>
      if bool_decide (fd_title fd = EmptyString)
         || bool_decide (fd_location fd = EmptyString)
      then (RequiredFieldsMissing, db)
      else
        let listingData :=
          mkListing new_id (u_id usr) type (fd_title fd)
                    (or_null (fd_description fd)) price (fd_location fd)
                    (or_null (fd_image_url fd)) (amenities_or_null amenities)
                    (fd_available_from fd) (fd_available_to fd)
                    (fd_max_guests fd) (Some true) now now in
        match run (insert_listing (Some (u_id usr)) listingData) db with
        | (None, db') => (ListingCreated, db')
        | (Some _, db') => (FailedToCreateListing, db')
        end
  | _, _ => (RequiredFieldsMissing, db)
  end.

(** The page: [if (!user || (!isAdmin && !isSubAdmin))] it renders "Access
    Denied" and no form; otherwise the form submits through [handleSubmit].
    [userRole] is the role the auth context reports, or null. *)
Definition CreateListing (usr : option User) (userRole : option app_role)
    (fd : formData) (amenities : list string) (new_id : uuid)
    (now : timestamptz) (db : database) : create_outcome * database :=
  let isAdmin := bool_decide (userRole = Some admin) in
  let isSubAdmin := bool_decide (userRole = Some subadmin) in
  match usr with
  | None => (AccessDenied, db)
  | Some usr =>
      if negb isAdmin && negb isSubAdmin then (AccessDenied, db)
      else handleSubmit usr fd amenities new_id now db
  end.

(** *** Home page *)

(** [ORDER BY created_at DESC]. *)
Definition newest_first (a b : listing) : Prop :=
  l_created_at b <= l_created_at a.

#[global] Instance newest_first_dec a b : Decision (newest_first a b).
Proof. unfold newest_first. apply _. Defined.

(** [fetchListings]: [select('*').eq('is_active', true).order('created_at',
    { ascending: false })] on listings, as the caller [uid] (NULL when
    nobody is signed in). *)
Definition fetchListings (uid : option uuid) (db : database) : list listing :=
  merge_sort newest_first
    (filter (fun l => l_is_active l = Some true)
       (filter (fun l => listings_select_policy db uid l = true)
          (listings db))).

(** *** Dashboard *)

(** The listings query of [fetchDashboardData]: [select('*')], narrowed to
    [owner_id = user.id] for a subadmin. *)
Definition fetchDashboardData_listings (usr : User)
    (userRole : option app_role) (db : database) : list listing :=
  let isSubAdmin := bool_decide (userRole = Some subadmin) in
  let listingsQuery :=
    filter (fun l => listings_select_policy db (Some (u_id usr)) l = true)
           (listings db) in
  if isSubAdmin
  then filter (fun l => l_owner_id l = u_id usr) listingsQuery
  else listingsQuery.

(** The [status] argument of [handleBookingAction], of type
    ['accepted' | 'rejected']. *)
Inductive decision := decide_accepted | decide_rejected.

Definition decision_status (d : decision) : booking_status :=
  match d with
  | decide_accepted => accepted
  | decide_rejected => rejected
  end.

(** [handleBookingAction]: [update({ status }).eq('id', bookingId)] on
    bookings; the error, if any, is only logged. *)
Definition handleBookingAction (uid : option uuid) (bookingId : uuid)
    (status : decision) (now : timestamptz) (db : database)
  : option pg_error * database :=
  run (update_booking_status uid bookingId (decision_status status) now) db.

(** The Accept and Reject buttons of a booking card are rendered under
    [booking.status === 'pending' && ...]. *)
Definition action_buttons_rendered (shown : booking) : bool :=
  bool_decide (b_status shown = pending).

(** A click on a booking card of the dashboard.  [shown] is the booking as
    the dashboard loaded it.  The page renders "Access Denied" under
    [!user || (!isAdmin && !isSubAdmin)], and a card without buttons offers
    nothing to click: [None] is "no request sent". *)
Definition Dashboard_decide (usr : option User) (userRole : option app_role)
    (shown : booking) (status : decision) (now : timestamptz) (db : database)
  : option (option pg_error) * database :=
  let isAdmin := bool_decide (userRole = Some admin) in
  let isSubAdmin := bool_decide (userRole = Some subadmin) in
  match usr with
  | None => (None, db)
  | Some usr =>
      if negb isAdmin && negb isSubAdmin then (None, db)
      else if action_buttons_rendered shown then
        let '(error, db') :=
          handleBookingAction (Some (u_id usr)) (b_id shown) status now db in
        (Some error, db')
      else (None, db)
  end.

(** ** More of the migration: who may manage role assignments *)

(** "Admins can manage user roles", [FOR ALL]: the only policy for INSERT,
    UPDATE and DELETE on [user_roles]. *)
Definition user_roles_manage_policy (db : database) (uid : option uuid)
  : bool :=
  has_role db uid admin.

(** [INSERT INTO user_roles (user_id, role)] as the caller [uid]: the policy,
    the primary key and [UNIQUE(user_id, role)], the foreign key. *)
Definition insert_user_role (uid : option uuid) (new_id : uuid)
    (now : timestamptz) (user_id : uuid) (role : app_role) (db : database)
  : result database :=
  let r := mkUserRole new_id user_id role now in
  _ ← check (user_roles_manage_policy db uid) insufficient_privilege;
  _ ← check (bool_decide (ur_id r ∉ ur_id <$> user_roles db)
             && bool_decide ((ur_user_id r, ur_role r) ∉ role_pairs db))
            unique_violation;
  _ ← check (references_auth_users db (ur_user_id r)) foreign_key_violation;
  Ok (with_user_roles db (user_roles db ++ [r])).

(** ** More of the pages *)

(** [.single()]: the row when the query yields exactly one, an error
    otherwise. *)
Definition single {A : Type} (rows : list A) : option A :=
  match rows with
  | [row] => Some row
  | _ => None
  end.

(** [fetchListing] of the listing page: [select('*').eq('id', id)
    .eq('is_active', true).single()]; on an error the page shows a toast,
    leaves [listing] null and navigates home. *)
Definition fetchListing (uid : option uuid) (id : uuid) (db : database)
  : option listing :=
  single
    (filter (fun l => l_is_active l = Some true)
       (filter (fun l => l_id l = id)
          (filter (fun l => listings_select_policy db uid l = true)
             (listings db)))).

(** [String.prototype.includes]: [searchString] occurs in [s]. *)
Fixpoint includes (s searchString : string) : bool :=
  String.prefix searchString s
  || match s with
     | EmptyString => false
     | String _ s' => includes s' searchString
     end.

(** [filteredListings] of the home page.  [toLowerCase] is the string
    method of that name; [selectedType] is [None] for ['all']. *)
Definition filteredListings (toLowerCase : string -> string)
    (listings : list listing) (searchTerm : string)
    (selectedType : option listing_type) : list listing :=
  filter
    (fun listing =>
       let matchesSearch :=
         includes (toLowerCase (l_title listing)) (toLowerCase searchTerm)
         || includes (toLowerCase (l_location listing))
                     (toLowerCase searchTerm) in
       let matchesType :=
         bool_decide (selectedType = None)
         || bool_decide (Some (l_type listing) = selectedType) in
       matchesSearch && matchesType = true)
    listings.

(** The columns of the listing embedded in a row of [fetchBookings]. *)
Record booking_listing := mkBookingListing {
  bl_id : uuid;
  bl_title : string;
  bl_type : listing_type;
  bl_location : string;
  bl_image_url : option string
}.

Definition newest_booking_first (a b : booking) : Prop :=
  b_created_at b <= b_created_at a.

#[global] Instance newest_booking_first_dec a b :
  Decision (newest_booking_first a b).
Proof. unfold newest_booking_first. apply _. Defined.

(** [listing:listings (id, title, type, location, image_url)]: the listing
    the booking refers to, as far as the caller may see it, else null. *)
Definition embedded_listing (db : database) (uid : option uuid) (b : booking)
  : option booking_listing :=
  (fun l => mkBookingListing (l_id l) (l_title l) (l_type l) (l_location l)
                             (l_image_url l))
  <$> head (filter (fun l => l_id l = b_listing_id b)
              (filter (fun l => listings_select_policy db uid l = true)
                 (listings db))).

(** [fetchBookings] of the my-bookings page: the bookings with
    [user_id = user.id], newest first, each with its embedded listing. *)
Definition fetchBookings (usr : User) (db : database)
  : list (booking * option booking_listing) :=
  (fun b => (b, embedded_listing db (Some (u_id usr)) b))
  <$> merge_sort newest_booking_first
        (filter (fun b => b_user_id b = u_id usr)
           (filter (fun b => bookings_select_policy db (Some (u_id usr)) b
                             = true)
              (bookings db))).

(** [DashboardStats] and the "Calculate stats" block of
    [fetchDashboardData]; [listingsData] and [bookingsData] are null when
    their query failed.  [total_price] is never null, so the two [|| 0] of
    the revenue replace a zero by zero and leave every value as it is. *)
Record DashboardStats := mkDashboardStats {
  totalListings : nat;
  totalBookings : nat;
  pendingBookings : nat;
  totalRevenue : number
}.

Definition fetchDashboardData_stats (listingsData : option (list listing))
    (bookingsData : option (list booking)) : DashboardStats :=
  mkDashboardStats
    (from_option length 0%nat listingsData)
    (from_option length 0%nat bookingsData)
    (from_option
       (fun bs => length (filter (fun b => b_status b = pending) bs))
       0%nat bookingsData)
    (from_option
       (foldl (fun sum b => num_add sum (num_decimal (b_total_price b)))
              (num_int 0))
       (num_int 0) bookingsData).

(** [handleAddAmenity] on the state [(amenities, newAmenity)]; [trim] is the
    string method of that name. *)
Definition handleAddAmenity (trim : string -> string)
    (amenities : list string) (newAmenity : string) : list string * string :=
  if negb (bool_decide (trim newAmenity = EmptyString))
     && negb (bool_decide (trim newAmenity ∈ amenities))
  then (amenities ++ [trim newAmenity], EmptyString)
  else (amenities, newAmenity).

(** [handleRemoveAmenity]. *)
Definition handleRemoveAmenity (amenityToRemove : string)
    (amenities : list string) : list string :=
  filter (fun amenity => amenity ≠ amenityToRemove) amenities.

(** ** A small database

    Four principals: [alice] holds the role [user]; [bob] holds [user] and
    [subadmin] and owns both listings; [carol] holds [user] and [admin];
    [dave] is authenticated and holds no role. *)
Module Sample.
Definition alice : uuid := 1%N.
Definition bob : uuid := 2%N.
Definition carol : uuid := 3%N.
Definition dave : uuid := 4%N.

Definition jan (d : Z) : Date := mkDate 2024 1 d.

(** An active hotel of [bob]: 100.00 a night, at most two guests. *)
Definition hotel_listing : listing :=
  mkListing 10%N bob hotel "Sea View" (Some "Rooms by the sea"%string)
            (dollars 100) "Karachi" None (Some ["wifi"%string]) None None
            (Some 2) (Some true) 50 50.

(** A deactivated car of [bob]. *)
Definition car_listing : listing :=
  mkListing 11%N bob car "Compact" None (dollars 40) "Lahore" None None
            None None None (Some false) 60 70.

Definition accepted_booking : booking :=
  mkBooking 20%N alice 10%N (jan 1) (jan 3) 2 (dollars 200) accepted
            None None 80 90.

Definition pending_booking : booking :=
  mkBooking 21%N alice 10%N (jan 5) (jan 6) 1 (dollars 100) pending
            None None 81 81.

(** [carol], an admin, has asked for a room herself. *)
Definition admin_booking : booking :=
  mkBooking 22%N carol 10%N (jan 8) (jan 9) 1 (dollars 100) pending
            None None 82 82.

Definition alice_account : auth_user :=
  mkAuthUser alice (Some "alice@example.org"%string) None.
Definition dave_account : auth_user :=
  mkAuthUser dave (Some "dave@example.org"%string) None.

Definition db : database :=
  mkDatabase
    [ alice_account;
      mkAuthUser bob (Some "bob@example.org"%string) (Some "Bob"%string);
      mkAuthUser carol (Some "carol@example.org"%string) None;
      dave_account ]
    [ mkProfile 30%N alice "User" "alice@example.org" None 1 1;
      mkProfile 31%N bob "Bob" "bob@example.org" None 2 2;
      mkProfile 32%N carol "User" "carol@example.org" None 3 3 ]
    [ mkUserRole 40%N alice user 1;
      mkUserRole 41%N bob user 2;
      mkUserRole 42%N bob subadmin 4;
      mkUserRole 43%N carol user 3;
      mkUserRole 44%N carol admin 5 ]
    [ hotel_listing; car_listing ]
    [ accepted_booking; pending_booking; admin_booking ].

Definition alice_session : User := mkUser alice "alice@example.org".
Definition bob_session : User := mkUser bob "bob@example.org".
Definition carol_session : User := mkUser carol "carol@example.org".

(** An engine that rejects every string outside the date-only form, and one
    that reads such a string as local midnight, five hours west of UTC. *)
Definition rejects_other_strings : Date -> option Z := fun _ => None.
Definition local_midnight_utc_minus_5 : Date -> option Z :=
  fun d => Some (days_from_civil d * 86400000 + 5 * 3600000).

(** A listing that [bob] wants to store with a price of -100.00. *)
Definition negative_listing : listing :=
  mkListing 13%N bob hotel "Cashback Inn" None (dollars (-100)) "Multan"
            None None None None None (Some true) 95 95.

(** [alice] had asked for the car before it was deactivated. *)
Definition car_booking : booking :=
  mkBooking 24%N alice 11%N (jan 10) (jan 12) 1 (dollars 80) pending
            None None 65 65.

Definition db_with_car_booking : database :=
  with_bookings db (bookings db ++ [car_booking]).

(** Lower case on the letters A to Z, standing in for [toLowerCase] on the
    sample titles. *)
Definition lower_ascii (c : Ascii.ascii) : Ascii.ascii :=
  let n := Ascii.nat_of_ascii c in
  if (65 <=? n)%nat && (n <=? 90)%nat then Ascii.ascii_of_nat (n + 32)
  else c.

Fixpoint lower (s : string) : string :=
  match s with
  | EmptyString => EmptyString
  | String c s' => String (lower_ascii c) (lower s')
  end.

(** A complete form of the create-listing page, with no amenity added. *)
Definition lodge_form : formData :=
  mkFormData (Some hotel) "Hill Lodge" EmptyString "Murree"
             (Some (dollars 80)) EmptyString
             (Some 4) None None.
End Sample.

(** * Properties *)

(** ** Sorting helpers *)

Section head_of_sorted.
Context {A : Type} (R : relation A) `{!∀ x y, Decision (R x y)}.
Context `{!Transitive R, !Total R}.

Lemma head_merge_sort_None (l : list A) :
  head (merge_sort R l) = None ↔ l = [].
Proof.
  rewrite head_None. split.
  - intros E. apply Permutation_nil_r. rewrite <- E.
    symmetry. apply merge_sort_Permutation.
  - intros ->. reflexivity.
Qed.

Lemma head_merge_sort_Some (l : list A) (x : A) :
  head (merge_sort R l) = Some x → x ∈ l ∧ ∀ y, y ∈ l → R x y.
Proof.
  intros [l' E]%head_Some.
  pose proof (StronglySorted_merge_sort R l) as S.
  pose proof (merge_sort_Permutation R l) as P.
  rewrite E in S, P. apply StronglySorted_cons in S as [F _].
  split.
  - rewrite <- P. left.
  - intros y Hy. rewrite <- P in Hy.
    apply elem_of_cons in Hy as [-> | Hy].
    + destruct (total R x x); assumption.
    + rewrite Forall_forall in F. auto.
Qed.
End head_of_sorted.

#[global] Instance by_role_rank_trans : Transitive by_role_rank.
Proof. unfold by_role_rank. intros a b c. lia. Qed.
#[global] Instance by_role_rank_total : Total by_role_rank.
Proof. unfold by_role_rank. intros a b. lia. Qed.
#[global] Instance newest_first_trans : Transitive newest_first.
Proof. unfold newest_first. intros a b c. lia. Qed.
#[global] Instance newest_first_total : Total newest_first.
Proof. unfold newest_first. intros a b. lia. Qed.

(** ** Roles *)

Lemma role_rank_inj (r r' : app_role) : role_rank r = role_rank r' → r = r'.
Proof. destruct r, r'; simpl; (reflexivity || lia). Qed.

Lemma role_rank_admin_least (r : app_role) : role_rank admin <= role_rank r.
Proof. destruct r; simpl; lia. Qed.

Lemma has_role_roles_of (db : database) (p : uuid) (r : app_role) :
  has_role db (Some p) r = true ↔ r ∈ roles_of db p.
Proof.
  unfold has_role, roles_of. rewrite existsb_exists, list_elem_of_fmap.
  split.
  - intros (x & Hx & Hc). apply andb_true_iff in Hc as [H1 H2].
    apply bool_decide_eq_true in H1, H2. exists x. split; [congruence |].
    apply list_elem_of_filter. split; [congruence |].
    by apply list_elem_of_In.
  - intros (x & -> & Hx). apply list_elem_of_filter in Hx as [<- Hx].
    exists x. split; [by apply list_elem_of_In |].
    apply andb_true_iff. split; by apply bool_decide_eq_true.
Qed.

Lemma has_role_anonymous (db : database) (r : app_role) :
  has_role db None r = false.
Proof.
  apply not_true_iff_false. unfold has_role. rewrite existsb_exists.
  intros (x & _ & [H _]%andb_true_iff). by apply bool_decide_eq_true in H.
Qed.

Lemma get_user_role_None (db : database) (p : uuid) :
  get_user_role db p = None ↔ roles_of db p = [].
Proof.
  unfold get_user_role, roles_of. rewrite fmap_None, head_merge_sort_None.
  split; [intros ->; reflexivity | apply fmap_nil_inv].
Qed.

Lemma get_user_role_Some (db : database) (p : uuid) (r : app_role) :
  get_user_role db p = Some r ↔
  r ∈ roles_of db p ∧ ∀ r', r' ∈ roles_of db p → role_rank r <= role_rank r'.
Proof.
  assert (Hfwd : ∀ r0, get_user_role db p = Some r0 →
    r0 ∈ roles_of db p ∧
    ∀ r', r' ∈ roles_of db p → role_rank r0 <= role_rank r').
  { intros r0. unfold get_user_role, roles_of. rewrite fmap_Some.
    intros (x & Hx & ->). apply head_merge_sort_Some in Hx as [Hin Hmin];
      [| apply _ ..].
    split; [by apply list_elem_of_fmap_2 |].
    intros r' (y & -> & Hy)%list_elem_of_fmap. by apply Hmin. }
  split; [apply Hfwd |]. intros [Hin Hmin].
  destruct (get_user_role db p) as [r0 |] eqn:E.
  - destruct (Hfwd r0 eq_refl) as [Hin0 Hmin0]. f_equal.
    apply role_rank_inj. specialize (Hmin _ Hin0). specialize (Hmin0 _ Hin).
    lia.
  - apply get_user_role_None in E. rewrite E in Hin. by apply elem_of_nil in Hin.
Qed.

(** The effective role is [admin] exactly when [has_role] finds an admin
    assignment: the policies and the role order agree on who is an admin. *)
Lemma get_user_role_admin (db : database) (p : uuid) :
  get_user_role db p = Some admin ↔ has_role db (Some p) admin = true.
Proof.
  rewrite get_user_role_Some, has_role_roles_of. split; [by intros [] |].
  intros H. split; [assumption |]. intros r' _. apply role_rank_admin_least.
Qed.

(** C4 (amended).  [get_user_role] returns the highest-priority role among
    the principal's assignments under the order admin > subadmin > user
    (assignments subadmin and user yield subadmin); when the principal has
    no assignment at all it returns no role (NULL), not [user]. *)
Theorem get_user_role_highest_priority (db : database) (p : uuid) :
  match get_user_role db p with
  | Some r =>
      r ∈ roles_of db p ∧
      Forall (λ r', role_rank r <= role_rank r') (roles_of db p)
  | None => roles_of db p = []
  end
  ∧ (get_user_role db p = Some admin ↔ admin ∈ roles_of db p)
  ∧ (get_user_role db p = Some subadmin ↔
       subadmin ∈ roles_of db p ∧ admin ∉ roles_of db p)
  ∧ (get_user_role db p = Some user ↔
       user ∈ roles_of db p ∧ (admin ∉ roles_of db p)
       ∧ (subadmin ∉ roles_of db p))
  ∧ (get_user_role db p = None ↔ roles_of db p = []).
Proof.
  assert (Hlow : ∀ r, r ∈ roles_of db p →
            (∀ r', r' ∈ roles_of db p → role_rank r <= role_rank r') ↔
            (∀ r', role_rank r' < role_rank r → r' ∉ roles_of db p)).
  { intros r _. split.
    - intros H r' Hlt Hin. specialize (H _ Hin). lia.
    - intros H r' Hin. destruct (decide (role_rank r <= role_rank r'));
        [assumption |]. exfalso. apply (H r'); [lia | assumption]. }
  split; [| split; [| split; [| split]]].
  - destruct (get_user_role db p) as [r |] eqn:E.
    + apply get_user_role_Some in E as [Hin Hmin]. split; [assumption |].
      by apply Forall_forall.
    + by apply get_user_role_None.
  - rewrite get_user_role_Some. split; [by intros [] |].
    intros H. split; [assumption |]. intros. apply role_rank_admin_least.
  - rewrite get_user_role_Some. split.
    + intros [Hin Hmin]. split; [assumption |]. intros Ha.
      specialize (Hmin _ Ha). simpl in Hmin. lia.
    + intros [Hin Hna]. split; [assumption |]. apply Hlow; [assumption |].
      intros r' Hlt. destruct r'; simpl in Hlt; first [lia | assumption].
  - rewrite get_user_role_Some. split.
    + intros [Hin Hmin]. split; [assumption |].
      split; intros Ha; specialize (Hmin _ Ha); simpl in Hmin; lia.
    + intros (Hin & Hna & Hns). split; [assumption |].
      apply Hlow; [assumption |].
      intros r' Hlt. destruct r'; simpl in Hlt; first [lia | assumption].
  - apply get_user_role_None.
Qed.

(** [bob] holds subadmin and user: his effective role is subadmin. *)
Lemma get_user_role_highest_priority_witness :
  roles_of Sample.db Sample.bob = [user; subadmin]
  ∧ get_user_role Sample.db Sample.bob = Some subadmin.
Proof.
  split; [reflexivity |].
  apply (proj1 (proj2 (proj2 (get_user_role_highest_priority
                                Sample.db Sample.bob)))).
  split; [vm_compute; right; left | vm_compute].
  intros H. repeat (apply elem_of_cons in H as [H | H]; [discriminate |]).
  by apply elem_of_nil in H.
Defined.

(** [dave] has no assignment: [get_user_role] yields NULL for him, not
    [user]. *)
Lemma get_user_role_unassigned_counterexample :
  roles_of Sample.db Sample.dave = []
  ∧ get_user_role Sample.db Sample.dave = None
  ∧ get_user_role Sample.db Sample.dave ≠ Some user.
Proof. repeat split. discriminate. Qed.

(** ** Statements: when they succeed and what they write *)

Lemma check_bind {A : Type} (c : bool) (e : pg_error) (k : unit → result A) :
  (check c e ≫= k) = if c then k tt else Err e.
Proof. by destruct c. Qed.

Lemma insert_booking_Ok (uid : option uuid) (new_id : uuid)
    (now : timestamptz) (v : booking_values) (db db' : database) :
  insert_booking uid new_id now v db = Ok db' ↔
  ∃ guests total,
    bv_guests v = Some guests
    ∧ to_numeric (bv_total_price v) = Ok (Some total)
    ∧ fits_integer guests = true
    ∧ uid = Some (bv_user_id v)
    ∧ (new_id ∉ b_id <$> bookings db)
    ∧ (bv_user_id v ∈ au_id <$> auth_users db)
    ∧ (bv_listing_id v ∈ l_id <$> listings db)
    ∧ db' = with_bookings db
              (bookings db ++ [booking_row new_id now v guests total]).
Proof.
  unfold insert_booking, references_auth_users, bookings_insert_policy.
  split.
  - intros H.
    destruct (to_numeric (bv_total_price v)) as [total_price |] eqn:E0;
      [| discriminate].
    cbn [mbind result_bind] in H. rewrite check_bind in H.
    destruct (from_option fits_integer true (bv_guests v)) eqn:E1;
      [| discriminate].
    rewrite check_bind in H. case_bool_decide as E2; [| discriminate].
    destruct (bv_guests v) as [guests |]; [| discriminate].
    destruct total_price as [total |]; [| discriminate].
    cbn zeta in H. rewrite check_bind in H.
    case_bool_decide as E3; [| discriminate].
    rewrite check_bind in H.
    destruct (bool_decide _ && bool_decide _) eqn:E4; [| discriminate].
    apply andb_true_iff in E4 as [E4 E4'].
    apply bool_decide_eq_true in E4, E4'. simpl in *.
    exists guests, total. repeat split; try assumption. congruence.
  - intros (guests & total & -> & E0 & E1 & -> & E3 & E4 & E4' & ->).
    rewrite E0. cbn [mbind result_bind]. rewrite check_bind. simpl.
    rewrite E1.
    rewrite check_bind, bool_decide_eq_true_2 by reflexivity.
    cbn zeta. rewrite check_bind. simpl.
    rewrite bool_decide_eq_true_2 by assumption.
    rewrite check_bind, !bool_decide_eq_true_2 by assumption. reflexivity.
Qed.

Lemma handleBooking_submitted (fallback : Date → option Z) (usr : User)
    (l : listing) (checkIn checkOut : Date) (guests : option Z)
    (specialRequests : string) (new_id : uuid) (now : timestamptz)
    (db db' : database) :
  handleBooking fallback (Some usr) (Some l) (Some checkIn) (Some checkOut)
                guests specialRequests new_id now db
  = (BookingSubmitted, db') ↔
  insert_booking (Some (u_id usr)) new_id now
    (mkBookingValues (u_id usr) (l_id l) checkIn checkOut guests
       (calculateTotalPrice fallback (Some l) (Some checkIn) (Some checkOut))
       (or_null specialRequests)) db = Ok db'.
Proof.
  unfold handleBooking, run.
  destruct (insert_booking _ _ _ _ _); split; intros H;
    first [by inversion H | discriminate].
Qed.

(** ** The calendar *)

(** The day number of 1970-01-01 is 0, and the day after an existing date
    has the next day number: across the end of a month, of February in leap
    years and other years, and of the year. *)
Lemma days_from_civil_epoch : days_from_civil (mkDate 1970 1 1) = 0.
Proof. reflexivity. Qed.

Ltac calendar_cases :=
  unfold days_from_civil; cbn [year month day];
  repeat case_bool_decide; try lia;
  Z.div_mod_to_equations; lia.

Lemma days_from_civil_next_day (d : Date) :
  valid_date d = true → days_from_civil (next_day d) = days_from_civil d + 1.
Proof.
  destruct d as [y m dd]. unfold valid_date, next_day, days_in_month.
  cbn [year month day].
  intros H. repeat (apply andb_true_iff in H as [H ?]).
  apply Z.leb_le in H, H0, H1.
  assert (Hm : m = 1 ∨ m = 2 ∨ m = 3 ∨ m = 4 ∨ m = 5 ∨ m = 6 ∨ m = 7
               ∨ m = 8 ∨ m = 9 ∨ m = 10 ∨ m = 11 ∨ m = 12) by lia.
  unfold is_leap in *.
  repeat (destruct Hm as [-> | Hm]); try subst m; cbn in H0 |- *.
  all: repeat match goal with
       | |- context [Z.ltb ?a ?b] => destruct (Z.ltb_spec a b)
       | |- context [Z.eqb ?a ?b] => destruct (Z.eqb_spec a b); cbn
       | H : context [Z.eqb ?a ?b] |- _ =>
           destruct (Z.eqb_spec a b); cbn in H
       end.
  all: cbn in *.
  all: calendar_cases.
Qed.

Lemma valid_date_next_day (d : Date) :
  valid_date d = true → valid_date (next_day d) = true.
Proof.
  destruct d as [y m dd]. unfold valid_date, next_day.
  cbn [year month day]. intros H.
  repeat (apply andb_true_iff in H as [H ?]).
  apply Z.leb_le in H, H0, H1, H2.
  assert (Hdim : ∀ y' m', 28 <= days_in_month y' m').
  { intros y' m'. unfold days_in_month.
    repeat (destruct (_ =? _)); cbn; try destruct (is_leap y'); lia. }
  destruct (Z.ltb_spec dd (days_in_month y m));
    [| destruct (Z.ltb_spec m 12)];
    cbn [year month day]; repeat (apply andb_true_iff; split);
    apply Z.leb_le; try lia.
  - specialize (Hdim y (m + 1)). lia.
  - specialize (Hdim (y + 1) 1). lia.
Qed.

Lemma days_from_civil_add_days (n : nat) (d : Date) :
  valid_date d = true →
  valid_date (add_days n d) = true
  ∧ days_from_civil (add_days n d) = days_from_civil d + Z.of_nat n.
Proof.
  intros Hd.
  induction n as [| n [IHv IHd]]; [split; [assumption | simpl; lia] |].
  unfold add_days in *. rewrite Nat.iter_succ. split.
  - by apply valid_date_next_day.
  - rewrite days_from_civil_next_day, IHd by assumption. lia.
Qed.

Lemma iso_date_only_valid (d : Date) :
  iso_date_only d = true → valid_date d = true.
Proof. unfold iso_date_only. by intros [_ H]%andb_true_iff. Qed.

(** ** Pricing *)

Lemma round_half_away_hundredths (k : Z) :
  round_half_away (Qmake (k * 100) 100) = k.
Proof.
  unfold round_half_away.
  unfold Qle_bool, Qplus, Qminus, Qopp, Qplus, Qfloor, Qceiling, Qopp.
  cbn [Qnum Qden]. change (Z.pos (100 * 2)) with 200.
  destruct (0 * 100 <=? k * 100 * 1).
  - symmetry. apply (Z.div_unique _ 200 k 100); lia.
  - unfold Qfloor. change (Z.pos (100 * 2)) with 200.
    assert (E : (- (k * 100 * 2 + - (1) * 100)) `div` 200 = - k)
      by (symmetry; apply (Z.div_unique _ 200 (- k) 100); lia).
    rewrite E. lia.
Qed.

(** The product of an integer and a two-decimal value is stored as it is,
    or refused when it does not fit the column. *)
Lemma to_numeric_product (n : Z) (p : numeric) :
  to_numeric (num_mul (num_int n) (num_decimal p))
  = if fits_numeric_10_2 (n * p) then Ok (Some (n * p))
    else Err numeric_value_out_of_range.
Proof.
  unfold to_numeric. cbn [number_value].
  assert (Hq : Qmult (Qmult (inject_Z n) (Qmake p 100)) (inject_Z 100)
               = Qmake (n * p * 100) 100).
  { unfold Qmult, inject_Z. cbn [Qnum Qden]. f_equal. }
  cbn zeta. by rewrite Hq, round_half_away_hundredths.
Qed.

Lemma to_numeric_product_Ok (n : Z) (p total : numeric) :
  to_numeric (num_mul (num_int n) (num_decimal p)) = Ok (Some total) ↔
  total = n * p ∧ fits_numeric_10_2 total = true.
Proof.
  rewrite to_numeric_product.
  destruct (fits_numeric_10_2 (n * p)) eqn:E; split.
  - by intros [= <-].
  - by intros [-> _].
  - discriminate.
  - intros [-> ?]. congruence.
Qed.

Lemma diffDays_whole_days (k : Z) :
  Qceiling (inject_Z (k * 86400000) / inject_Z (1000 * 60 * 60 * 24)) = k.
Proof.
  unfold Qceiling, Qfloor, Qdiv, Qmult, Qinv, inject_Z, Qopp.
  change (1000 * 60 * 60 * 24) with 86400000. cbn [Qnum Qden Pos.mul].
  change (Z.pos (1 * 86400000)) with 86400000.
  rewrite Z.mul_1_r, <- Z.mul_opp_l, Z.div_mul; lia.
Qed.

Lemma whole_days_quotient (k : Z) :
  (inject_Z (k * 86400000) / inject_Z (1000 * 60 * 60 * 24) == inject_Z k)%Q.
Proof.
  unfold Qeq, Qdiv, Qmult, Qinv, inject_Z.
  change (1000 * 60 * 60 * 24) with 86400000. cbn [Qnum Qden Pos.mul].
  change (Z.pos (1 * 86400000)) with 86400000. lia.
Qed.

Lemma diffDays_nonneg (a : Z) :
  0 <= Qceiling (inject_Z (Z.abs a) / inject_Z (1000 * 60 * 60 * 24)).
Proof.
  unfold Qceiling, Qfloor, Qdiv, Qmult, Qinv, inject_Z, Qopp.
  change (1000 * 60 * 60 * 24) with 86400000. cbn [Qnum Qden Pos.mul].
  change (Z.pos (1 * 86400000)) with 86400000.
  Z.div_mod_to_equations. lia.
Qed.

Lemma getTime_iso (fallback : Date → option Z) (d : Date) :
  iso_date_only d = true →
  getTime fallback d = Some (days_from_civil d * 86400000).
Proof. intros H. unfold getTime. by rewrite H. Qed.

(** Every time value is the time of a date the input can hold. *)
Lemma getTime_date_input_time (fallback : Date → option Z) (d : Date)
    (t : Z) :
  getTime fallback d = Some t → date_input_time t = true.
Proof.
  unfold getTime. destruct (iso_date_only d) eqn:E.
  - intros [= <-]. unfold iso_date_only in E.
    apply andb_true_iff in E as [[Hy0 Hy1]%andb_true_iff Hv].
    unfold valid_date in Hv. repeat (apply andb_true_iff in Hv as [Hv ?]).
    assert (Hdim : day d <= 31).
    { apply Z.leb_le in H. revert H. unfold days_in_month.
      repeat (destruct (_ =? _)); cbn; try destruct (is_leap _); lia. }
    apply Z.leb_le in Hy0, Hy1, Hv, H0, H1. clear H.
    unfold date_input_time. apply andb_true_iff.
    change (days_from_civil (mkDate 0 1 1)) with (-719528).
    split; apply Z.leb_le; unfold days_from_civil;
      repeat case_bool_decide; Z.div_mod_to_equations; lia.
  - destruct (fallback d) as [t' |]; [| discriminate]. simpl.
    destruct (date_input_time t') eqn:Ht; [| discriminate].
    by intros [= <-].
Qed.

(** Two time values are less than 2^53 apart and fewer than 2^27 days
    apart: the subtraction in [calculateTotalPrice] is exact and the
    quotient is in the range where [Math.ceil] of the double is the ceiling
    of the quotient. *)
Lemma diffTime_exact (fallback : Date → option Z) (checkIn checkOut : Date)
    (startDate endDate : Z) :
  getTime fallback checkIn = Some startDate →
  getTime fallback checkOut = Some endDate →
  Z.abs (endDate - startDate) < 2 ^ 53
  ∧ Z.abs (endDate - startDate) < 2 ^ 27 * (1000 * 60 * 60 * 24).
Proof.
  intros Hs%getTime_date_input_time He%getTime_date_input_time.
  unfold date_input_time in *.
  change (days_from_civil (mkDate 0 1 1)) with (-719528) in *.
  apply andb_true_iff in Hs as [Hs Hs'], He as [He He'].
  apply Z.leb_le in Hs, Hs', He, He'. split; lia.
Qed.

(** What [calculateTotalPrice] returns once both dates have a time value. *)
Lemma calculateTotalPrice_times (fallback : Date → option Z) (l : listing)
    (checkIn checkOut : Date) (startDate endDate : Z) :
  getTime fallback checkIn = Some startDate →
  getTime fallback checkOut = Some endDate →
  calculateTotalPrice fallback (Some l) (Some checkIn) (Some checkOut)
  = num_mul
      (num_int (Qceiling (inject_Z (Z.abs (endDate - startDate))
                          / inject_Z (1000 * 60 * 60 * 24))))
      (num_decimal (l_price l)).
Proof. intros Hs He. unfold calculateTotalPrice. by rewrite Hs, He. Qed.

(** Between two dates in the date-only form the day count is the difference
    of their day numbers. *)
Lemma calculateTotalPrice_days (fallback : Date → option Z) (l : listing)
    (checkIn checkOut : Date) :
  iso_date_only checkIn = true →
  iso_date_only checkOut = true →
  calculateTotalPrice fallback (Some l) (Some checkIn) (Some checkOut)
  = num_mul
      (num_int (Z.abs (days_from_civil checkOut - days_from_civil checkIn)))
      (num_decimal (l_price l)).
Proof.
  intros Hin Hout.
  rewrite (calculateTotalPrice_times fallback l checkIn checkOut _ _
             (getTime_iso _ _ Hin) (getTime_iso _ _ Hout)).
  replace (Z.abs (days_from_civil checkOut * 86400000
                  - days_from_civil checkIn * 86400000))
    with (Z.abs (days_from_civil checkOut - days_from_civil checkIn)
          * 86400000) by lia.
  by rewrite diffDays_whole_days.
Qed.

(** A number that is written to the table is no NaN: both dates had a time
    value, and the value stored is the day count times the price. *)
Lemma calculateTotalPrice_stored (fallback : Date → option Z) (l : listing)
    (checkIn checkOut : Date) (total : numeric) :
  to_numeric (calculateTotalPrice fallback (Some l) (Some checkIn)
                (Some checkOut)) = Ok (Some total) →
  ∃ days,
    dateDiffInDays fallback checkOut checkIn = Some days
    ∧ calculateTotalPrice fallback (Some l) (Some checkIn) (Some checkOut)
      = num_mul (num_int (Qceiling days)) (num_decimal (l_price l))
    ∧ total = Qceiling days * l_price l.
Proof.
  unfold calculateTotalPrice, dateDiffInDays.
  destruct (getTime fallback checkIn) as [startDate |]; [| discriminate].
  destruct (getTime fallback checkOut) as [endDate |]; [| discriminate].
  cbn zeta. intros [-> _]%to_numeric_product_Ok.
  eexists. by repeat split.
Qed.

Lemma calculateTotalPrice_swap (fallback : Date → option Z)
    (listing : option listing) (checkIn checkOut : option Date) :
  calculateTotalPrice fallback listing checkIn checkOut
  = calculateTotalPrice fallback listing checkOut checkIn.
Proof.
  destruct listing as [l |], checkIn as [d1 |], checkOut as [d2 |];
    try reflexivity.
  unfold calculateTotalPrice.
  destruct (getTime fallback d1) as [t1 |], (getTime fallback d2) as [t2 |];
    try reflexivity.
  cbn zeta. by replace (Z.abs (t1 - t2)) with (Z.abs (t2 - t1)) by lia.
Qed.

(** Whether an insert of a booking goes through does not depend on the two
    dates: no constraint or policy of the table reads them. *)
Lemma insert_booking_dates_irrelevant (uid : option uuid) (new_id : uuid)
    (now : timestamptz) (v v' : booking_values) (db : database) :
  bv_user_id v = bv_user_id v' →
  bv_listing_id v = bv_listing_id v' →
  bv_guests v = bv_guests v' →
  bv_total_price v = bv_total_price v' →
  (∃ db', insert_booking uid new_id now v db = Ok db') →
  ∃ db', insert_booking uid new_id now v' db = Ok db'.
Proof.
  intros Eu El Eg Et [db' H].
  apply insert_booking_Ok in H as (g & t & ? & ? & ? & ? & ? & ? & ? & _).
  eexists. apply insert_booking_Ok. exists g, t.
  rewrite <- Eu, <- El, <- Eg, <- Et. repeat split; eauto.
Qed.

Lemma handleBooking_swap_outcome (fallback : Date → option Z)
    (usr : option User) (listing : option listing)
    (checkIn checkOut : option Date) (guests : option Z)
    (specialRequests : string) (new_id : uuid) (now : timestamptz)
    (db : database) :
  (handleBooking fallback usr listing checkIn checkOut guests
                 specialRequests new_id now db).1
  = (handleBooking fallback usr listing checkOut checkIn guests
                   specialRequests new_id now db).1.
Proof.
  destruct usr as [u |], listing as [l |]; try reflexivity.
  destruct checkIn as [d1 |], checkOut as [d2 |]; try reflexivity.
  unfold handleBooking, run.
  rewrite (calculateTotalPrice_swap fallback (Some l) (Some d2) (Some d1)).
  set (t := calculateTotalPrice fallback (Some l) (Some d1) (Some d2)).
  destruct (insert_booking _ _ _ (mkBookingValues _ _ d1 d2 _ _ _) db)
    as [db1 | e1] eqn:E1;
  destruct (insert_booking _ _ _ (mkBookingValues _ _ d2 d1 _ _ _) db)
    as [db2 | e2] eqn:E2; try reflexivity; exfalso.
  - destruct (insert_booking_dates_irrelevant (Some (u_id u)) new_id now
                (mkBookingValues (u_id u) (l_id l) d1 d2 guests t
                                 (or_null specialRequests))
                (mkBookingValues (u_id u) (l_id l) d2 d1 guests t
                                 (or_null specialRequests)) db) as [? H];
      [reflexivity .. | by eexists | congruence].
  - destruct (insert_booking_dates_irrelevant (Some (u_id u)) new_id now
                (mkBookingValues (u_id u) (l_id l) d2 d1 guests t
                                 (or_null specialRequests))
                (mkBookingValues (u_id u) (l_id l) d1 d2 guests t
                                 (or_null specialRequests)) db) as [? H];
      [reflexivity .. | by eexists | congruence].
Qed.

(** A stay of [n] nights between two dates in the date-only form: the
    difference in days is [n] and [n] times the price is stored. *)
Lemma calculateTotalPrice_add_days (fallback : Date → option Z) (l : listing)
    (d : Date) (n : nat) :
  iso_date_only d = true →
  iso_date_only (add_days n d) = true →
  (∃ days, dateDiffInDays fallback (add_days n d) d = Some days
           ∧ (days == inject_Z (Z.of_nat n))%Q)
  ∧ calculateTotalPrice fallback (Some l) (Some d) (Some (add_days n d))
    = num_mul (num_int (Z.of_nat n)) (num_decimal (l_price l))
  ∧ (∀ total,
       to_numeric
         (calculateTotalPrice fallback (Some l) (Some d)
            (Some (add_days n d))) = Ok (Some total)
       ↔ total = Z.of_nat n * l_price l ∧ fits_numeric_10_2 total = true).
Proof.
  intros Hd Hn.
  destruct (days_from_civil_add_days n d (iso_date_only_valid d Hd))
    as [_ Hdays].
  assert (Hcalc : calculateTotalPrice fallback (Some l) (Some d)
                    (Some (add_days n d))
                  = num_mul (num_int (Z.of_nat n)) (num_decimal (l_price l))).
  { rewrite (calculateTotalPrice_days fallback l d _ Hd Hn), Hdays.
    do 2 f_equal. lia. }
  split; [| split; [exact Hcalc |]].
  - unfold dateDiffInDays.
    rewrite (getTime_iso _ _ Hd), (getTime_iso _ _ Hn), Hdays.
    eexists. split; [reflexivity |].
    replace (Z.abs ((days_from_civil d + Z.of_nat n) * 86400000
                    - days_from_civil d * 86400000))
      with (Z.of_nat n * 86400000) by lia.
    apply whole_days_quotient.
  - intros total. rewrite Hcalc. apply to_numeric_product_Ok.
Qed.

(** An engine that reads a five-digit year as local time, west of UTC, makes
    the night from 9999-12-31 to 10000-01-01 two days. *)
Lemma five_digit_year_two_days :
  calculateTotalPrice Sample.local_midnight_utc_minus_5
    (Some Sample.hotel_listing) (Some (mkDate 9999 12 31))
    (Some (mkDate 10000 1 1))
  = num_mul (num_int 2) (num_decimal (dollars 100)).
Proof. reflexivity. Qed.

(** C5.  The total price of every submitted booking is
    [ceil(dateDiffInDays(checkOut, checkIn)) * listing.price], whatever the
    type of the listing.  Between two existing dates with four-digit years
    the difference in days is the number of calendar days from one to the
    other, so [n] nights are billed [n] times the price; from 2024-01-01 to
    2024-01-03 at a price of 100 the total is 200. *)
Theorem total_price_is_days_times_price :
  (∀ (fallback : Date → option Z) (usr : User) (l : listing)
     (checkIn checkOut : Date) (guests : option Z) (specialRequests : string)
     (new_id : uuid) (now : timestamptz) (db db' : database),
     handleBooking fallback (Some usr) (Some l) (Some checkIn)
                   (Some checkOut) guests specialRequests new_id now db
     = (BookingSubmitted, db') →
     ∃ row days,
       bookings db' = bookings db ++ [row]
       ∧ b_id row = new_id
       ∧ b_listing_id row = l_id l
       ∧ b_check_in row = checkIn
       ∧ b_check_out row = checkOut
       ∧ b_status row = pending
       ∧ dateDiffInDays fallback checkOut checkIn = Some days
       ∧ calculateTotalPrice fallback (Some l) (Some checkIn) (Some checkOut)
         = num_mul (num_int (Qceiling days)) (num_decimal (l_price l))
       ∧ b_total_price row = Qceiling days * l_price l)
  ∧ (∀ (fallback : Date → option Z) (l : listing) (d : Date) (n : nat),
       iso_date_only d = true →
       iso_date_only (add_days n d) = true →
       (∃ days, dateDiffInDays fallback (add_days n d) d = Some days
                ∧ (days == inject_Z (Z.of_nat n))%Q)
       ∧ calculateTotalPrice fallback (Some l) (Some d) (Some (add_days n d))
         = num_mul (num_int (Z.of_nat n)) (num_decimal (l_price l))
       ∧ (∀ total,
            to_numeric
              (calculateTotalPrice fallback (Some l) (Some d)
                 (Some (add_days n d))) = Ok (Some total)
            ↔ total = Z.of_nat n * l_price l
              ∧ fits_numeric_10_2 total = true))
  ∧ (∀ (fallback : Date → option Z) (l : listing),
       l_price l = dollars 100 →
       add_days 2 (mkDate 2024 1 1) = mkDate 2024 1 3
       ∧ calculateTotalPrice fallback (Some l) (Some (mkDate 2024 1 1))
           (Some (mkDate 2024 1 3))
         = num_mul (num_int 2) (num_decimal (dollars 100))
       ∧ to_numeric
           (calculateTotalPrice fallback (Some l) (Some (mkDate 2024 1 1))
              (Some (mkDate 2024 1 3)))
         = Ok (Some (dollars 200))).
Proof.
  split; [| split].
  - intros fallback usr l checkIn checkOut guests sr new_id now db db' H.
    apply handleBooking_submitted, insert_booking_Ok in H
      as (g & total & _ & Ht & _ & _ & _ & _ & _ & ->).
    simpl in Ht. apply calculateTotalPrice_stored in Ht
      as (days & Hdays & Hcalc & ->).
    eexists _, days. by repeat split.
  - intros fallback l d n. apply calculateTotalPrice_add_days.
  - intros fallback l Hp. split; [reflexivity |].
    destruct (calculateTotalPrice_add_days fallback l (mkDate 2024 1 1) 2
                eq_refl eq_refl) as (_ & Hcalc & H).
    split.
    + etrans; [exact Hcalc |]. by rewrite Hp.
    + apply H. rewrite Hp. by split.
Qed.

(** [alice] books the hotel (100.00 a night) from 2024-01-01 to 2024-01-03:
    the stored total is 200.00. *)
Lemma total_price_is_days_times_price_witness :
  ∃ row,
    bookings (handleBooking Sample.rejects_other_strings
                (Some Sample.alice_session)
                (Some Sample.hotel_listing) (Some (mkDate 2024 1 1))
                (Some (mkDate 2024 1 3)) (Some 2) EmptyString 23%N 100
                Sample.db).2
    = bookings Sample.db ++ [row]
    ∧ b_total_price row = dollars 200.
Proof.
  destruct (proj1 total_price_is_days_times_price
              Sample.rejects_other_strings Sample.alice_session
              Sample.hotel_listing (mkDate 2024 1 1) (mkDate 2024 1 3)
              (Some 2) EmptyString 23%N 100 Sample.db _ eq_refl)
    as (row & days & Hb & _ & _ & _ & _ & _ & Hd & _ & Ht).
  exists row. split; [exact Hb |]. rewrite Ht.
  injection Hd as <-. reflexivity.
Defined.




(** ** Policies on bookings *)

(** A listing owned by the caller is visible to the caller, so the sub-select
    of the booking policies finds it whenever it exists. *)
Lemma owns_listing_of_spec (db : database) (uid : option uuid) (b : booking) :
  owns_listing_of db uid b = true ↔
  ∃ l, l ∈ listings db ∧ l_id l = b_listing_id b ∧ Some (l_owner_id l) = uid.
Proof.
  unfold owns_listing_of. rewrite existsb_exists. split.
  - intros (l & Hl & [H1 H2]%andb_true_iff).
    apply bool_decide_eq_true in H1, H2.
    apply list_elem_of_In, list_elem_of_filter in Hl as [_ Hl]. eauto.
  - intros (l & Hl & H1 & H2). exists l. split.
    + apply list_elem_of_In, list_elem_of_filter. split; [| assumption].
      unfold listings_select_policy.
      rewrite (bool_decide_eq_true_2 (uid = Some (l_owner_id l))) by done.
      by rewrite orb_true_r.
    + apply andb_true_iff. split; by apply bool_decide_eq_true.
Qed.

Lemma bookings_update_policy_spec (db : database) (p : uuid) (b : booking) :
  bookings_update_policy db (Some p) b = true ↔
  (∃ l, l ∈ listings db ∧ l_id l = b_listing_id b ∧ l_owner_id l = p)
  ∨ get_user_role db p = Some admin.
Proof.
  unfold bookings_update_policy.
  rewrite orb_true_iff, owns_listing_of_spec, get_user_role_admin.
  split; (intros [(l & ? & ? & ?) | ?]; [left; exists l | right]);
    repeat split; congruence.
Qed.

(** Whoever may update a booking may also see it. *)
Lemma bookings_update_select (db : database) (uid : option uuid)
    (b : booking) :
  bookings_update_policy db uid b = true →
  bookings_select_policy db uid b = true.
Proof.
  unfold bookings_update_policy, bookings_select_policy.
  intros [-> | ->]%orb_true_iff; by rewrite ?orb_true_r.
Qed.

(** The policies read only [listing_id] of the booking they judge. *)
Lemma bookings_update_policy_listing_id (db : database) (uid : option uuid)
    (b b' : booking) :
  b_listing_id b' = b_listing_id b →
  bookings_update_policy db uid b' = bookings_update_policy db uid b.
Proof.
  intros E. unfold bookings_update_policy, owns_listing_of. by rewrite E.
Qed.

(** ** Deciding a booking *)

Lemma update_booking_row_effect (db : database) (uid : option uuid)
    (bookingId : uuid) (status : booking_status) (now : timestamptz)
    (b : booking) :
  update_booking_row db uid bookingId status now b
  = Ok (if bool_decide (b_id b = bookingId) && bookings_update_policy db uid b
        then update_updated_at_column now (set_status status b)
        else b).
Proof.
  unfold update_booking_row.
  rewrite (bookings_update_policy_listing_id db uid b
             (update_updated_at_column now (set_status status b)) eq_refl).
  case_bool_decide; simpl; [| reflexivity].
  destruct (bookings_update_policy db uid b) eqn:E.
  - by rewrite (bookings_update_select _ _ _ E).
  - by rewrite andb_false_r.
Qed.

Lemma update_rows_total (f : booking → result booking) (g : booking → booking)
    (bs : list booking) :
  (∀ b, f b = Ok (g b)) → update_rows f bs = Ok (g <$> bs).
Proof.
  intros H. induction bs as [| b bs IH]; [reflexivity |].
  simpl. by rewrite H, IH.
Qed.

Lemma handleBookingAction_effect (uid : option uuid) (bookingId : uuid)
    (status : decision) (now : timestamptz) (db : database) :
  handleBookingAction uid bookingId status now db
  = (None,
     with_bookings db
       ((λ b, if bool_decide (b_id b = bookingId)
                 && bookings_update_policy db uid b
              then update_updated_at_column now
                     (set_status (decision_status status) b)
              else b) <$> bookings db)).
Proof.
  unfold handleBookingAction, run, update_booking_status.
  by rewrite (update_rows_total _ _ _
                (update_booking_row_effect db uid bookingId _ now)).
Qed.

Lemma with_bookings_same (db : database) : with_bookings db (bookings db) = db.
Proof. by destruct db. Qed.

Lemma fmap_unchanged {A : Type} (g : A → A) (l : list A) :
  (∀ x, x ∈ l → g x = x) → g <$> l = l.
Proof.
  induction l as [| x l IH]; intros H; [reflexivity |].
  rewrite fmap_cons, H, IH; [reflexivity | | left].
  intros y Hy. apply H. by right.
Qed.

(** C1 (amended).  For a booking that is accepted or rejected the dashboard
    renders no Accept or Reject button, for any actor: no request is sent
    and the database is left as it is.  [handleBookingAction] itself has no
    status condition and never fails (there is no InvalidTransition); for an
    actor who is neither the owner of the listing nor an admin it changes
    nothing. *)
Theorem decide_terminal_booking (shown : booking) (status : decision)
    (now : timestamptz) (db : database) :
  b_status shown = accepted ∨ b_status shown = rejected →
  (∀ (usr : option User) (userRole : option app_role),
     Dashboard_decide usr userRole shown status now db = (None, db))
  ∧ (∀ uid : option uuid,
       (handleBookingAction uid (b_id shown) status now db).1 = None)
  ∧ (∀ uid : option uuid,
       (∀ b, b ∈ bookings db → b_id b = b_id shown →
             bookings_update_policy db uid b = false) →
       (handleBookingAction uid (b_id shown) status now db).2 = db).
Proof.
  intros Hterminal. split; [| split].
  - intros usr userRole. unfold Dashboard_decide, action_buttons_rendered.
    rewrite (bool_decide_eq_false_2 (b_status shown = pending))
      by (destruct Hterminal as [H | H]; rewrite H; discriminate).
    destruct usr; [| reflexivity]. by destruct (negb _ && negb _).
  - intros uid. by rewrite handleBookingAction_effect.
  - intros uid Hdenied. rewrite handleBookingAction_effect. simpl.
    rewrite fmap_unchanged; [apply with_bookings_same |].
    intros b Hb. case_bool_decide as E; [| reflexivity].
    by rewrite (Hdenied b Hb E).
Qed.

(** The accepted booking of the sample is offered to nobody for a decision,
    not even to [carol], an admin. *)
Lemma decide_terminal_booking_witness :
  b_status Sample.accepted_booking = accepted
  ∧ Dashboard_decide (Some Sample.carol_session) (Some admin)
      Sample.accepted_booking decide_rejected 100 Sample.db
    = (None, Sample.db).
Proof.
  split; [reflexivity |].
  apply (proj1 (decide_terminal_booking Sample.accepted_booking
                  decide_rejected 100 Sample.db (or_introl eq_refl))).
Defined.

(** [carol] (admin) and [bob] (owner of the hotel) both reject the booking
    that is already accepted: the update reports no error and the status
    becomes rejected.  A dashboard that loaded the booking while it was
    pending still shows the buttons and sends exactly this update. *)
Lemma decide_terminal_booking_counterexample :
  Sample.accepted_booking ∈ bookings Sample.db
  ∧ b_status Sample.accepted_booking = accepted
  ∧ (handleBookingAction (Some Sample.carol) 20%N decide_rejected 100
       Sample.db).1 = None
  ∧ b_status <$> bookings (handleBookingAction (Some Sample.carol) 20%N
                             decide_rejected 100 Sample.db).2
    = [rejected; pending; pending]
  ∧ b_status <$> bookings (handleBookingAction (Some Sample.bob) 20%N
                             decide_rejected 100 Sample.db).2
    = [rejected; pending; pending]
  ∧ (let '(sent, db') :=
       Dashboard_decide (Some Sample.bob_session) (Some subadmin)
         (set_status pending Sample.accepted_booking) decide_rejected 100
         Sample.db in
     sent = Some None ∧ b_status <$> bookings db'
                        = [rejected; pending; pending]).
Proof.
  split; [left |]. repeat split; vm_compute; reflexivity.
Qed.

(** Nothing between the guests input and the table compares [guests]
    with [max_guests] of the listing, or with 1: any integer that fits the
    column is stored. *)
Lemma handleBooking_any_guests (fallback : Date → option Z) (usr : User)
    (l : listing) (checkIn checkOut : Date) (guests : Z) (total : numeric)
    (specialRequests : string) (new_id : uuid) (now : timestamptz)
    (db : database) :
  to_numeric
    (calculateTotalPrice fallback (Some l) (Some checkIn) (Some checkOut))
  = Ok (Some total) →
  fits_integer guests = true →
  new_id ∉ b_id <$> bookings db →
  u_id usr ∈ au_id <$> auth_users db →
  l_id l ∈ l_id <$> listings db →
  ∃ row,
    handleBooking fallback (Some usr) (Some l) (Some checkIn) (Some checkOut)
                  (Some guests) specialRequests new_id now db
    = (BookingSubmitted, with_bookings db (bookings db ++ [row]))
    ∧ b_guests row = guests ∧ b_status row = pending.
Proof.
  intros Hprice Hguests Hfresh Hfk Hl. eexists. split.
  - apply handleBooking_submitted, insert_booking_Ok.
    exists guests, total. repeat split; eauto.
  - by split.
Qed.

(** C3 (the code at the failing inputs).  The hotel allows at most two
    guests; a request for five guests, and one for no guest at all, are
    both submitted and stored as pending bookings. *)
Theorem handleBooking_does_not_check_guests (fallback : Date → option Z) :
  l_max_guests Sample.hotel_listing = Some 2
  ∧ handleBooking fallback (Some Sample.alice_session)
      (Some Sample.hotel_listing)
      (Some (mkDate 2024 1 1)) (Some (mkDate 2024 1 3)) (Some 5) EmptyString
      23%N 100 Sample.db
    = (BookingSubmitted,
       with_bookings Sample.db
         (bookings Sample.db
          ++ [mkBooking 23%N Sample.alice 10%N (mkDate 2024 1 1)
                (mkDate 2024 1 3) 5 (dollars 200) pending None None
                100 100]))
  ∧ handleBooking fallback (Some Sample.alice_session)
      (Some Sample.hotel_listing)
      (Some (mkDate 2024 1 1)) (Some (mkDate 2024 1 3)) (Some 0) EmptyString
      23%N 100 Sample.db
    = (BookingSubmitted,
       with_bookings Sample.db
         (bookings Sample.db
          ++ [mkBooking 23%N Sample.alice 10%N (mkDate 2024 1 1)
                (mkDate 2024 1 3) 0 (dollars 200) pending None None
                100 100])).
Proof. repeat split. Qed.

(** C6 (amended).  A principal may update the status of a booking exactly
    when the principal owns the listing the booking refers to or has the
    effective role admin.  Who requested the booking plays no part: the
    requester can change the status only if they are also that owner or an
    admin, and otherwise the update leaves the booking as it is. *)
Theorem booking_update_permission (db : database) (p : uuid) (b : booking)
    (status : decision) (now : timestamptz) :
  let permitted :=
    (∃ l, l ∈ listings db ∧ l_id l = b_listing_id b ∧ l_owner_id l = p)
    ∨ get_user_role db p = Some admin in
  (bookings_select_policy db (Some p) b
   && bookings_update_policy db (Some p) b = true ↔ permitted)
  ∧ (permitted →
     update_booking_row db (Some p) (b_id b) (decision_status status) now b
     = Ok (update_updated_at_column now
             (set_status (decision_status status) b)))
  ∧ (¬ permitted →
     update_booking_row db (Some p) (b_id b) (decision_status status) now b
     = Ok b)
  ∧ (∀ b', b_listing_id b' = b_listing_id b →
           bookings_update_policy db (Some p) b'
           = bookings_update_policy db (Some p) b)
  ∧ (p = b_user_id b → ¬ permitted → b ∈ bookings db →
     b ∈ bookings (handleBookingAction (Some p) (b_id b) status now db).2).
Proof.
  intros permitted.
  assert (Hiff : bookings_update_policy db (Some p) b = true ↔ permitted)
    by apply bookings_update_policy_spec.
  split; [| split; [| split; [| split]]].
  - rewrite andb_true_iff, <- Hiff. split; [by intros [] |].
    intros H. split; [by apply bookings_update_select | assumption].
  - intros H%Hiff. rewrite update_booking_row_effect, H.
    by rewrite bool_decide_eq_true_2.
  - intros H. rewrite update_booking_row_effect.
    destruct (bookings_update_policy db (Some p) b) eqn:E.
    + exfalso. by apply H, Hiff.
    + by rewrite andb_false_r.
  - intros b'. apply bookings_update_policy_listing_id.
  - intros _ H Hb. rewrite handleBookingAction_effect. simpl.
    apply list_elem_of_fmap. exists b. split; [| assumption].
    destruct (bookings_update_policy db (Some p) b) eqn:E.
    + exfalso. by apply H, Hiff.
    + by rewrite andb_false_r.
Qed.

(** [alice] requested the pending booking; she neither owns the hotel nor is
    an admin, so her update leaves it pending. *)
Lemma booking_update_permission_witness :
  Sample.alice = b_user_id Sample.pending_booking
  ∧ Sample.pending_booking
    ∈ bookings (handleBookingAction (Some Sample.alice) 21%N decide_accepted
                  100 Sample.db).2.
Proof.
  split; [reflexivity |].
  apply (proj2 (proj2 (proj2 (proj2
           (booking_update_permission Sample.db Sample.alice
              Sample.pending_booking decide_accepted 100)))) eq_refl).
  - intros [(l & Hl & Hid & Ho) | Hadmin].
    + repeat (apply elem_of_cons in Hl as [-> | Hl]; [discriminate |]).
      by apply elem_of_nil in Hl.
    + vm_compute in Hadmin. discriminate.
  - right. left.
Defined.

(** [carol] requested a booking and is an admin: her own update changes its
    status, so a requester can change the status of her booking. *)
Lemma requester_changes_status_counterexample :
  Sample.admin_booking ∈ bookings Sample.db
  ∧ b_user_id Sample.admin_booking = Sample.carol
  ∧ b_status Sample.admin_booking = pending
  ∧ handleBookingAction (Some Sample.carol) (b_id Sample.admin_booking)
      decide_accepted 100 Sample.db
    = (None,
       with_bookings Sample.db
         [ Sample.accepted_booking; Sample.pending_booking;
           update_updated_at_column 100
             (set_status accepted Sample.admin_booking) ]).
Proof.
  split; [do 2 right; left |]. repeat split.
Qed.

(** ** Listings *)

Lemma listings_select_policy_active (db : database) (uid : option uuid)
    (l : listing) :
  l_is_active l = Some true → listings_select_policy db uid l = true.
Proof.
  intros H. unfold listings_select_policy.
  by rewrite (bool_decide_eq_true_2 _ H).
Qed.

Lemma listings_select_policy_owner (db : database) (l : listing) :
  listings_select_policy db (Some (l_owner_id l)) l = true.
Proof.
  unfold listings_select_policy.
  rewrite (bool_decide_eq_true_2 (Some (l_owner_id l) = Some (l_owner_id l)))
    by reflexivity.
  by rewrite orb_true_r.
Qed.

Lemma listings_select_policy_admin (db : database) (p : uuid) (l : listing) :
  get_user_role db p = Some admin →
  listings_select_policy db (Some p) l = true.
Proof.
  intros H%get_user_role_admin. unfold listings_select_policy.
  by rewrite H, orb_true_r.
Qed.

(** The insert policy of listings looks at the owner column only: it lets
    every authenticated principal insert a listing of their own, whatever
    their role.  The role gate of the application is the one of the page. *)
Lemma listings_write_policy_own_row (db : database) (row : listing) :
  listings_write_policy db (Some (l_owner_id row)) row = true.
Proof.
  unfold listings_write_policy. by rewrite bool_decide_eq_true_2.
Qed.

Lemma fetchListings_unsorted (uid : option uuid) (db : database) :
  fetchListings uid db
  ≡ₚ filter (λ l, l_is_active l = Some true) (listings db).
Proof.
  unfold fetchListings. rewrite merge_sort_Permutation.
  rewrite list_filter_filter_l; [reflexivity |].
  intros l. apply listings_select_policy_active.
Qed.

(** C2.  A principal whose role is [user] gets "Access Denied" from the
    create-listing page, and no row is added to listings; so does a
    principal for whom no role is reported. *)
Theorem CreateListing_user_denied (usr : option User) (fd : formData)
    (amenities : list string) (new_id : uuid) (now : timestamptz)
    (db : database) :
  CreateListing usr (Some user) fd amenities new_id now db
  = (AccessDenied, db)
  ∧ listings (CreateListing usr (Some user) fd amenities new_id now db).2
    = listings db
  ∧ CreateListing usr None fd amenities new_id now db = (AccessDenied, db)
  ∧ (∀ u, usr = Some u → get_user_role db (u_id u) = Some user →
          CreateListing usr (get_user_role db (u_id u)) fd amenities
                        new_id now db
          = (AccessDenied, db)).
Proof.
  assert (H : ∀ role, role = Some user ∨ role = None →
            CreateListing usr role fd amenities new_id now db
            = (AccessDenied, db)).
  { intros role Hr. unfold CreateListing. destruct usr; [| reflexivity].
    by destruct Hr as [-> | ->]. }
  split; [| split; [| split]].
  - apply H. by left.
  - rewrite H; [reflexivity | by left].
  - apply H. by right.
  - intros u _ Hu. apply H. by left.
Qed.

(** [alice] holds only the role [user]; a complete form of hers is turned
    away. *)
Lemma CreateListing_user_denied_witness :
  get_user_role Sample.db Sample.alice = Some user
  ∧ CreateListing (Some Sample.alice_session)
      (get_user_role Sample.db Sample.alice)
      Sample.lodge_form [] 12%N 100 Sample.db
    = (AccessDenied, Sample.db).
Proof.
  split; [reflexivity |].
  apply (proj2 (proj2 (proj2
           (CreateListing_user_denied (Some Sample.alice_session)
              Sample.lodge_form [] 12%N 100 Sample.db)))
         Sample.alice_session eq_refl eq_refl).
Defined.



(** ** Provisioning of a new user *)

Lemma handle_new_user_Ok (NEW : auth_user) (profile_id role_id : uuid)
    (now : timestamptz) (db db' : database) :
  handle_new_user NEW profile_id role_id now db = Ok db' ↔
  ∃ email,
    au_email NEW = Some email
    ∧ (profile_id ∉ p_id <$> profiles db)
    ∧ (au_id NEW ∉ p_user_id <$> profiles db)
    ∧ (au_id NEW ∈ au_id <$> auth_users db)
    ∧ (role_id ∉ ur_id <$> user_roles db)
    ∧ ((au_id NEW, user) ∉ role_pairs db)
    ∧ db' = mkDatabase (auth_users db)
              (profiles db
               ++ [mkProfile profile_id (au_id NEW)
                     (default "User"%string (au_full_name NEW)) email None
                     now now])
              (user_roles db ++ [mkUserRole role_id (au_id NEW) user now])
              (listings db) (bookings db).
Proof.
  unfold handle_new_user, references_auth_users, role_pairs. split.
  - intros H. destruct (au_email NEW) as [email |]; [| discriminate].
    cbn zeta in H. cbn [p_id p_user_id ur_id ur_user_id ur_role] in H.
    rewrite check_bind in H.
    destruct (bool_decide (profile_id ∉ _) && _) eqn:E1; [| discriminate].
    rewrite check_bind in H.
    destruct (bool_decide (au_id NEW ∈ _)) eqn:E2; [| discriminate].
    apply bool_decide_eq_true in E2.
    rewrite check_bind in H.
    destruct (bool_decide (role_id ∉ _) && _) eqn:E3; [| discriminate].
    rewrite check_bind in H.
    apply andb_true_iff in E1 as [E1 E1'].
    apply andb_true_iff in E3 as [E3 E3'].
    apply bool_decide_eq_true in E1, E1', E3, E3'. simpl in E3, E3'.
    exists email. repeat split; try assumption.
    injection H as <-. reflexivity.
  - intros (email & -> & E1 & E1' & E2 & E3 & E3' & ->).
    cbn zeta. cbn [p_id p_user_id ur_id ur_user_id ur_role].
    rewrite check_bind.
    rewrite (bool_decide_eq_true_2 _ E1), (bool_decide_eq_true_2 _ E1').
    cbn [andb]. rewrite check_bind, (bool_decide_eq_true_2 _ E2).
    rewrite check_bind. cbn [user_roles with_profiles auth_users].
    rewrite (bool_decide_eq_true_2 _ E3), (bool_decide_eq_true_2 _ E3').
    cbn [andb]. rewrite check_bind, (bool_decide_eq_true_2 _ E2).
    reflexivity.
Qed.

(** Once the profile of a principal exists, [handle_new_user] stops at its
    first insert. *)
Lemma handle_new_user_profile_exists (NEW : auth_user)
    (profile_id role_id : uuid) (now : timestamptz) (db : database) :
  is_Some (au_email NEW) →
  au_id NEW ∈ p_user_id <$> profiles db →
  handle_new_user NEW profile_id role_id now db = Err unique_violation.
Proof.
  intros [email E] Hp. unfold handle_new_user. rewrite E. cbn zeta.
  rewrite check_bind. simpl.
  rewrite (bool_decide_eq_false_2 (au_id NEW ∉ p_user_id <$> profiles db))
    by (intros H; by apply H).
  by rewrite andb_false_r.
Qed.

(** With the pair (principal, 'user') already in [user_roles] the function
    fails with a unique violation, at the first or at the second insert. *)
Lemma handle_new_user_pair_exists (NEW : auth_user)
    (profile_id role_id : uuid) (now : timestamptz) (db : database) :
  is_Some (au_email NEW) →
  au_id NEW ∈ au_id <$> auth_users db →
  (au_id NEW, user) ∈ role_pairs db →
  handle_new_user NEW profile_id role_id now db = Err unique_violation.
Proof.
  intros [email E] Hfk Hpair. unfold handle_new_user, references_auth_users.
  rewrite E. cbn zeta. rewrite check_bind.
  destruct (bool_decide _ && bool_decide _); [| reflexivity].
  rewrite check_bind, bool_decide_eq_true_2 by assumption.
  rewrite check_bind. simpl.
  rewrite (bool_decide_eq_false_2 ((au_id NEW, user) ∉ _))
    by (intros H; by apply H).
  by rewrite andb_false_r.
Qed.

Lemma NoDup_snoc {A : Type} (l : list A) (x : A) :
  NoDup l → x ∉ l → NoDup (l ++ [x]).
Proof.
  intros Hl Hx. apply NoDup_app. split; [assumption |]. split.
  - intros y Hy ->%list_elem_of_singleton. contradiction.
  - apply NoDup_singleton.
Qed.

(** C8 (amended).  [handle_new_user] inserts (principal, 'user') without
    looking first.  When it succeeds the pair was absent and is now present
    once; every later invocation for the same principal fails with a unique
    violation and changes nothing, as does an invocation on a table that
    already holds the pair; after every invocation, failed or not, no
    (principal, role) pair occurs twice. *)
Theorem handle_new_user_once (NEW : auth_user) (profile_id role_id : uuid)
    (now : timestamptz) (db : database) :
  NoDup (role_pairs db) →
  (∀ db', handle_new_user NEW profile_id role_id now db = Ok db' →
     ((au_id NEW, user) ∉ role_pairs db)
     ∧ role_pairs db' = role_pairs db ++ [(au_id NEW, user)]
     ∧ NoDup (role_pairs db')
     ∧ ∀ (profile_id' role_id' : uuid) (now' : timestamptz),
         run (handle_new_user NEW profile_id' role_id' now') db'
         = (Some unique_violation, db'))
  ∧ ((au_id NEW, user) ∈ role_pairs db →
     (∃ e, run (handle_new_user NEW profile_id role_id now) db
           = (Some e, db))
     ∧ (is_Some (au_email NEW) → au_id NEW ∈ au_id <$> auth_users db →
        run (handle_new_user NEW profile_id role_id now) db
        = (Some unique_violation, db)))
  ∧ NoDup (role_pairs (run (handle_new_user NEW profile_id role_id now) db).2).
Proof.
  intros Hset.
  assert (Hok : ∀ db', handle_new_user NEW profile_id role_id now db = Ok db' →
            ((au_id NEW, user) ∉ role_pairs db)
            ∧ role_pairs db' = role_pairs db ++ [(au_id NEW, user)]
            ∧ is_Some (au_email NEW)
            ∧ au_id NEW ∈ p_user_id <$> profiles db').
  { intros db' (email & E & _ & _ & _ & _ & Hpair & ->)%handle_new_user_Ok.
    split; [assumption |]. split; [| split; [by eexists |]].
    - unfold role_pairs. simpl. by rewrite fmap_app.
    - simpl. rewrite fmap_app. apply elem_of_app. right. left. }
  split; [| split].
  - intros db' H. destruct (Hok db' H) as (Hpair & Hpairs & Hemail & Hprof).
    split; [assumption |]. split; [assumption |]. split.
    + rewrite Hpairs. by apply NoDup_snoc.
    + intros profile_id' role_id' now'. unfold run.
      by rewrite handle_new_user_profile_exists.
  - intros Hpair. split.
    + unfold run.
      destruct (handle_new_user NEW profile_id role_id now db) as [db' | e]
        eqn:E; [| by exists e].
      exfalso. by destruct (Hok db' eq_refl) as [Hno _].
    + intros Hemail Hfk. unfold run.
      by rewrite handle_new_user_pair_exists.
  - unfold run.
    destruct (handle_new_user NEW profile_id role_id now db) as [db' | e]
      eqn:E; [| assumption].
    destruct (Hok db' eq_refl) as (Hpair & Hpairs & _). simpl.
    rewrite Hpairs. by apply NoDup_snoc.
Qed.

(** [dave] is provisioned once; the second run for him fails with a unique
    violation and leaves the tables as they were. *)
Lemma handle_new_user_once_witness :
  NoDup (role_pairs Sample.db)
  ∧ ∃ db',
      handle_new_user Sample.dave_account 33%N 45%N 100 Sample.db = Ok db'
      ∧ role_pairs db' = role_pairs Sample.db ++ [(Sample.dave, user)]
      ∧ run (handle_new_user Sample.dave_account 34%N 46%N 101) db'
        = (Some unique_violation, db').
Proof.
  assert (Hset : NoDup (role_pairs Sample.db)).
  { apply (bool_decide_unpack _). vm_compute. exact I. }
  split; [exact Hset |].
  destruct (handle_new_user Sample.dave_account 33%N 45%N 100 Sample.db)
    as [db' | e] eqn:E; [| vm_compute in E; discriminate].
  destruct (proj1 (handle_new_user_once Sample.dave_account 33%N 45%N 100
                     Sample.db Hset) db' E) as (_ & Hpairs & _ & Hagain).
  exists db'. split; [reflexivity |]. split; [exact Hpairs |].
  apply Hagain.
Defined.

(** Re-invocation fails: the second run for [dave], and a run for [alice],
    who already holds (alice, 'user'), both raise a unique violation. *)
Lemma handle_new_user_again_counterexample :
  (∃ db',
     handle_new_user Sample.dave_account 33%N 45%N 100 Sample.db = Ok db'
     ∧ handle_new_user Sample.dave_account 34%N 46%N 101 db'
       = Err unique_violation)
  ∧ (Sample.alice, user) ∈ role_pairs Sample.db
  ∧ handle_new_user Sample.alice_account 34%N 46%N 101 Sample.db
    = Err unique_violation.
Proof.
  split; [eexists; split; reflexivity |]. split; [left | reflexivity].
Qed.

(** ** Creating a listing and reading it back *)

Lemma insert_listing_own_row (row : listing) (db : database) :
  fits_numeric_10_2 (l_price row) = true →
  from_option fits_integer true (l_max_guests row) = true →
  l_id row ∉ l_id <$> listings db →
  l_owner_id row ∈ au_id <$> auth_users db →
  insert_listing (Some (l_owner_id row)) row db
  = Ok (with_listings db (listings db ++ [row])).
Proof.
  intros Hp Hg Hid Hfk. unfold insert_listing, references_auth_users.
  rewrite check_bind, Hp, Hg. cbn [andb].
  rewrite check_bind, listings_write_policy_own_row.
  rewrite check_bind, (bool_decide_eq_true_2 _ Hid).
  by rewrite check_bind, (bool_decide_eq_true_2 _ Hfk).
Qed.

Lemma insert_listing_Ok (uid : option uuid) (row : listing)
    (db db' : database) :
  insert_listing uid row db = Ok db' →
  db' = with_listings db (listings db ++ [row]).
Proof.
  unfold insert_listing. intros H.
  rewrite check_bind in H. destruct (_ && _); [| discriminate].
  rewrite check_bind in H.
  destruct (listings_write_policy db uid row); [| discriminate].
  rewrite check_bind in H. case_bool_decide; [| discriminate].
  rewrite check_bind in H.
  destruct (references_auth_users db (l_owner_id row)); [| discriminate].
  by injection H as <-.
Qed.

(** A row that is active is listed for every caller once it is stored. *)
Lemma fetchListings_appended (uid : option uuid) (db : database)
    (row : listing) :
  l_is_active row = Some true →
  row ∈ fetchListings uid (with_listings db (listings db ++ [row])).
Proof.
  intros Ha. rewrite fetchListings_unsorted. simpl.
  apply list_elem_of_filter. split; [assumption |].
  apply elem_of_app. right. left.
Qed.

(** C9 (amended).  A listing created from a valid form is returned by
    [fetchListings] with its fields as entered: type, title, location, price,
    max_guests and the availability dates unchanged, description and image
    reference unchanged when filled in and NULL when left empty, and the
    amenities unchanged when there is at least one; an empty amenities list
    comes back as NULL.  Id and timestamps are assigned by the server. *)
Theorem create_then_fetch (usr : User) (userRole : option app_role)
    (fd : formData) (amenities : list string) (new_id : uuid)
    (now : timestamptz) (db : database) (type : listing_type)
    (price : numeric) :
  userRole = Some admin ∨ userRole = Some subadmin →
  fd_type fd = Some type →
  fd_title fd ≠ EmptyString →
  fd_location fd ≠ EmptyString →
  fd_price fd = Some price →
  fits_numeric_10_2 price = true →
  from_option fits_integer true (fd_max_guests fd) = true →
  new_id ∉ l_id <$> listings db →
  u_id usr ∈ au_id <$> auth_users db →
  ∃ db' row,
    CreateListing (Some usr) userRole fd amenities new_id now db
    = (ListingCreated, db')
    ∧ (∀ uid, row ∈ fetchListings uid db')
    ∧ (∀ uid r, r ∈ fetchListings uid db' → l_id r = new_id → r = row)
    ∧ l_id row = new_id
    ∧ l_owner_id row = u_id usr
    ∧ l_type row = type
    ∧ l_title row = fd_title fd
    ∧ l_description row = or_null (fd_description fd)
    ∧ l_location row = fd_location fd
    ∧ l_price row = price
    ∧ l_image_url row = or_null (fd_image_url fd)
    ∧ l_max_guests row = fd_max_guests fd
    ∧ l_available_from row = fd_available_from fd
    ∧ l_available_to row = fd_available_to fd
    ∧ l_amenities row
      = match amenities with [] => None | _ :: _ => Some amenities end.
Proof.
  intros Hrole Htype Htitle Hloc Hprice Hfit Hguests Hfresh Hfk.
  set (row := mkListing new_id (u_id usr) type (fd_title fd)
                (or_null (fd_description fd)) price (fd_location fd)
                (or_null (fd_image_url fd)) (amenities_or_null amenities)
                (fd_available_from fd) (fd_available_to fd)
                (fd_max_guests fd) (Some true) now now).
  exists (with_listings db (listings db ++ [row])), row.
  split; [| split; [| split]].
  - unfold CreateListing.
    assert (Hgate : negb (bool_decide (userRole = Some admin))
                    && negb (bool_decide (userRole = Some subadmin)) = false)
      by (destruct Hrole as [-> | ->]; reflexivity).
    rewrite Hgate. unfold handleSubmit. rewrite Htype, Hprice.
    rewrite (bool_decide_eq_false_2 _ Htitle),
            (bool_decide_eq_false_2 _ Hloc).
    cbn [orb].
    pose proof (insert_listing_own_row row db Hfit Hguests Hfresh Hfk)
      as Hins.
    unfold run. subst row. cbn [l_owner_id] in Hins. by rewrite Hins.
  - intros uid. by apply fetchListings_appended.
  - intros uid r Hr Hid.
    rewrite fetchListings_unsorted in Hr. simpl in Hr.
    apply list_elem_of_filter in Hr as [_ Hr].
    apply elem_of_app in Hr as [Hr | Hr].
    + exfalso. apply Hfresh. rewrite <- Hid. by apply list_elem_of_fmap_2.
    + by apply list_elem_of_singleton in Hr.
  - repeat split. simpl. unfold amenities_or_null.
    destruct amenities; [reflexivity |].
    rewrite bool_decide_eq_true_2; [reflexivity | simpl; lia].
Qed.

(** [bob], a subadmin, creates the lodge with the amenities wifi and
    parking and finds both on the row that [fetchListings] returns. *)
Lemma create_then_fetch_witness :
  ∃ db' row,
    CreateListing (Some Sample.bob_session) (Some subadmin) Sample.lodge_form
                  ["wifi"; "parking"]%string 12%N 100 Sample.db
    = (ListingCreated, db')
    ∧ row ∈ fetchListings None db'
    ∧ l_title row = "Hill Lodge"%string
    ∧ l_price row = dollars 80
    ∧ l_amenities row = Some ["wifi"; "parking"]%string.
Proof.
  destruct (create_then_fetch Sample.bob_session (Some subadmin)
              Sample.lodge_form ["wifi"; "parking"]%string 12%N 100 Sample.db
              hotel (dollars 80)) as (db' & row & H);
    [by right | reflexivity | discriminate | discriminate | reflexivity
    | reflexivity | reflexivity | | | ].
  - apply (bool_decide_unpack _). vm_compute. exact I.
  - apply (bool_decide_unpack _). vm_compute. exact I.
  - destruct H as (Hc & Hf & _ & _ & _ & _ & Ht & _ & _ & Hp & _ & _ & _ & _
                   & Ha).
    exists db', row. repeat split; [exact Hc | apply Hf | exact Ht | exact Hp
                                    | exact Ha].
Defined.

(** The lodge created with an empty amenities list is listed with
    [amenities] NULL, not with the empty list that was entered. *)
Lemma empty_amenities_counterexample :
  let '(outcome, db') :=
    CreateListing (Some Sample.bob_session) (Some subadmin) Sample.lodge_form
                  [] 12%N 100 Sample.db in
  outcome = ListingCreated
  ∧ l_amenities <$> filter (λ l, l_id l = 12%N) (fetchListings None db')
    = [None]
  ∧ ¬ ∃ row, row ∈ fetchListings None db' ∧ l_id row = 12%N
             ∧ l_amenities row = Some [].
Proof.
  vm_compute. split; [reflexivity |]. split; [reflexivity |].
  intros (row & Hrow & Hid & Ha).
  repeat (apply elem_of_cons in Hrow as [-> | Hrow]; [discriminate |]).
  by apply elem_of_nil in Hrow.
Qed.

(** * Further properties of the migration and the pages *)

(** ** Roles and who may grant them *)

(** X1.  [has_role] and [get_user_role] agree: the effective role is one the
    principal holds, it ranks at least as high as every role the principal
    holds, and there is none exactly when [has_role] fails for all three
    roles. *)
Theorem has_role_get_user_role (db : database) (p : uuid) :
  (∀ r, has_role db (Some p) r = true →
        ∃ r0, get_user_role db p = Some r0
              ∧ role_rank r0 <= role_rank r
              ∧ has_role db (Some p) r0 = true)
  ∧ (∀ r0, get_user_role db p = Some r0 → has_role db (Some p) r0 = true)
  ∧ (get_user_role db p = None ↔ ∀ r, has_role db (Some p) r = false).
Proof.
  split; [| split].
  - intros r Hr%has_role_roles_of.
    destruct (get_user_role db p) as [r0 |] eqn:E.
    + apply get_user_role_Some in E as [Hin Hmin]. exists r0.
      split; [reflexivity |]. split; [by apply Hmin |].
      by apply has_role_roles_of.
    + apply get_user_role_None in E. rewrite E in Hr.
      by apply elem_of_nil in Hr.
  - intros r0 [Hin _]%get_user_role_Some. by apply has_role_roles_of.
  - rewrite get_user_role_None. split.
    + intros E r. apply not_true_iff_false. rewrite has_role_roles_of, E.
      apply not_elem_of_nil.
    + intros H. destruct (roles_of db p) as [| r rs] eqn:E; [reflexivity |].
      specialize (H r). apply not_true_iff_false in H. exfalso. apply H.
      apply has_role_roles_of. rewrite E. left.
Qed.

(** [bob] holds [user]; his effective role, subadmin, ranks above it. *)
Lemma has_role_get_user_role_witness :
  has_role Sample.db (Some Sample.bob) user = true
  ∧ ∃ r0, get_user_role Sample.db Sample.bob = Some r0
          ∧ role_rank r0 <= role_rank user.
Proof.
  split; [reflexivity |].
  destruct (proj1 (has_role_get_user_role Sample.db Sample.bob) user eq_refl)
    as (r0 & H1 & H2 & _).
  by exists r0.
Defined.

Lemma roles_of_insert (db : database) (r : user_role) (q : uuid) :
  roles_of (with_user_roles db (user_roles db ++ [r])) q
  = roles_of db q ++ (if decide (ur_user_id r = q) then [ur_role r] else []).
Proof.
  unfold roles_of. simpl. rewrite filter_app, fmap_app. f_equal.
  rewrite filter_cons, filter_nil. by destruct (decide (ur_user_id r = q)).
Qed.

Lemma insert_user_role_Ok (uid : option uuid) (new_id : uuid)
    (now : timestamptz) (user_id : uuid) (role : app_role) (db : database) :
  has_role db uid admin = true →
  new_id ∉ ur_id <$> user_roles db →
  (user_id, role) ∉ role_pairs db →
  user_id ∈ au_id <$> auth_users db →
  insert_user_role uid new_id now user_id role db
  = Ok (with_user_roles db
          (user_roles db ++ [mkUserRole new_id user_id role now])).
Proof.
  intros Ha Hid Hpair Hfk.
  unfold insert_user_role, user_roles_manage_policy, references_auth_users.
  cbn zeta. cbn [ur_id ur_user_id ur_role].
  rewrite check_bind, Ha, check_bind.
  rewrite (bool_decide_eq_true_2 _ Hid), (bool_decide_eq_true_2 _ Hpair).
  cbn [andb]. by rewrite check_bind, (bool_decide_eq_true_2 _ Hfk).
Qed.

(** X2.  Only an admin can grant a role.  An INSERT into [user_roles] by a
    caller without the admin role, signed in or not, fails with
    insufficient privilege and changes nothing.  When an admin grants a role
    the target does not hold yet, the target's effective role becomes the
    higher of the old one and the new one, nobody else's role changes and no
    (principal, role) pair occurs twice. *)
Theorem insert_user_role_effect (uid : option uuid) (new_id : uuid)
    (now : timestamptz) (user_id : uuid) (role : app_role) (db : database) :
  (has_role db uid admin = false →
   run (insert_user_role uid new_id now user_id role) db
   = (Some insufficient_privilege, db))
  ∧ (has_role db uid admin = true →
     NoDup (role_pairs db) →
     new_id ∉ ur_id <$> user_roles db →
     (user_id, role) ∉ role_pairs db →
     user_id ∈ au_id <$> auth_users db →
     ∃ db',
       run (insert_user_role uid new_id now user_id role) db = (None, db')
       ∧ get_user_role db' user_id
         = Some (match get_user_role db user_id with
                 | Some old =>
                     if decide (role_rank role <= role_rank old)
                     then role else old
                 | None => role
                 end)
       ∧ (∀ q, q ≠ user_id → get_user_role db' q = get_user_role db q)
       ∧ NoDup (role_pairs db')).
Proof.
  split.
  - intros Ha. unfold run, insert_user_role, user_roles_manage_policy.
    cbn zeta. by rewrite check_bind, Ha.
  - intros Ha Hset Hid Hpair Hfk.
    set (r := mkUserRole new_id user_id role now).
    exists (with_user_roles db (user_roles db ++ [r])).
    assert (Hroles : ∀ q,
              roles_of (with_user_roles db (user_roles db ++ [r])) q
              = roles_of db q ++ (if decide (user_id = q) then [role] else []))
      by (intros q; apply roles_of_insert).
    split; [| split; [| split]].
    + unfold run. by rewrite insert_user_role_Ok.
    + apply get_user_role_Some. rewrite Hroles, decide_True by reflexivity.
      destruct (get_user_role db user_id) as [old |] eqn:E.
      * apply get_user_role_Some in E as [Hin Hmin].
        destruct (decide (role_rank role <= role_rank old)) as [Hle | Hgt].
        -- split; [apply elem_of_app; right; left |].
           intros r' [Hr' | ->%list_elem_of_singleton]%elem_of_app; [| lia].
           specialize (Hmin _ Hr'). lia.
        -- split; [apply elem_of_app; by left |].
           intros r' [Hr' | ->%list_elem_of_singleton]%elem_of_app; [| lia].
           by apply Hmin.
      * apply get_user_role_None in E. rewrite E. simpl.
        split; [left |]. intros r' ->%list_elem_of_singleton. lia.
    + intros q Hq.
      assert (Hsame : roles_of (with_user_roles db (user_roles db ++ [r])) q
                      = roles_of db q).
      { rewrite Hroles, decide_False by congruence. apply app_nil_r. }
      destruct (get_user_role db q) as [rq |] eqn:E.
      * apply get_user_role_Some. rewrite Hsame.
        by apply get_user_role_Some.
      * apply get_user_role_None. rewrite Hsame.
        by apply get_user_role_None.
    + unfold role_pairs. simpl. rewrite fmap_app. by apply NoDup_snoc.
Qed.

(** [alice] cannot make herself an admin; [carol], an admin, makes her a
    subadmin. *)
Lemma insert_user_role_effect_witness :
  has_role Sample.db (Some Sample.alice) admin = false
  ∧ run (insert_user_role (Some Sample.alice) 47%N 100 Sample.alice admin)
        Sample.db
    = (Some insufficient_privilege, Sample.db)
  ∧ ∃ db',
      run (insert_user_role (Some Sample.carol) 47%N 100 Sample.alice
                            subadmin) Sample.db = (None, db')
      ∧ get_user_role db' Sample.alice = Some subadmin.
Proof.
  split; [reflexivity |]. split.
  - apply (proj1 (insert_user_role_effect (Some Sample.alice) 47%N 100
                    Sample.alice admin Sample.db) eq_refl).
  - destruct (proj2 (insert_user_role_effect (Some Sample.carol) 47%N 100
                       Sample.alice subadmin Sample.db) eq_refl)
      as (db' & Hrun & Hrole & _).
    + apply (bool_decide_unpack _). vm_compute. exact I.
    + apply (bool_decide_unpack _). vm_compute. exact I.
    + apply (bool_decide_unpack _). vm_compute. exact I.
    + apply (bool_decide_unpack _). vm_compute. exact I.
    + exists db'. split; [exact Hrun |]. rewrite Hrole. reflexivity.
Defined.

(** ** The listing page *)

Lemma filter_comm {A : Type} (P Q : A → Prop) `{!∀ x, Decision (P x)}
    `{!∀ x, Decision (Q x)} (l : list A) :
  filter P (filter Q l) = filter Q (filter P l).
Proof.
  rewrite !list_filter_filter. apply list_filter_iff. tauto.
Qed.

(** Among rows with distinct keys, the rows with a given key are that one
    row, or none. *)
Lemma filter_key_unique {A K : Type} `{!EqDecision K} (f : A → K)
    (l : list A) (x : A) :
  NoDup (f <$> l) → x ∈ l → filter (λ y, f y = f x) l = [x].
Proof.
  induction l as [| y l IH]; intros Hnd Hx; [by apply elem_of_nil in Hx |].
  rewrite fmap_cons in Hnd. apply NoDup_cons in Hnd as [Hy Hnd].
  rewrite filter_cons. apply elem_of_cons in Hx as [-> | Hx].
  - rewrite decide_True by reflexivity. f_equal.
    destruct (filter (λ z, f z = f y) l) as [| z zs] eqn:E; [reflexivity |].
    exfalso. assert (Hz : z ∈ filter (λ z, f z = f y) l) by (rewrite E; left).
    apply list_elem_of_filter in Hz as [Hfz Hz]. apply Hy. rewrite <- Hfz.
    by apply list_elem_of_fmap_2.
  - rewrite decide_False; [by apply IH |].
    intros Hfy. apply Hy. rewrite Hfy. by apply list_elem_of_fmap_2.
Qed.

Lemma fetchListing_filters (uid : option uuid) (id : uuid) (db : database) :
  fetchListing uid id db
  = single (filter (λ l, l_is_active l = Some true)
              (filter (λ l, l_id l = id) (listings db))).
Proof.
  unfold fetchListing. f_equal.
  rewrite (filter_comm (λ l, l_id l = id)).
  apply list_filter_filter_l. intros l.
  apply listings_select_policy_active.
Qed.

(** X3.  The listing page loads a listing only while it is active: with
    distinct listing ids, [fetchListing] yields a listing exactly when it is
    the stored row with that id and [is_active] is true, for every caller;
    a listing that is not active is not loaded even for its owner or an
    admin, and [handleBooking] on the page then stores nothing. *)
Theorem fetchListing_active_only (uid : option uuid) (id : uuid)
    (db : database) :
  NoDup (l_id <$> listings db) →
  (∀ l, fetchListing uid id db = Some l ↔
        l ∈ listings db ∧ l_id l = id ∧ l_is_active l = Some true)
  ∧ (∀ l, l ∈ listings db → l_id l = id → l_is_active l ≠ Some true →
       fetchListing uid id db = None
       ∧ ∀ fallback usr checkIn checkOut guests specialRequests new_id now,
           handleBooking fallback usr (fetchListing uid id db) checkIn
                         checkOut guests specialRequests new_id now db
           = (PleaseSignIn, db)).
Proof.
  intros Hnd.
  assert (Hrow : ∀ l, l ∈ listings db → l_id l = id →
            fetchListing uid id db
            = if decide (l_is_active l = Some true) then Some l else None).
  { intros l Hl <-. rewrite fetchListing_filters.
    rewrite (filter_key_unique l_id _ l Hnd Hl), filter_cons, filter_nil.
    by destruct (decide (l_is_active l = Some true)). }
  split.
  - intros l. split.
    + rewrite fetchListing_filters. intros H.
      destruct (filter _ (filter _ _)) as [| x [| y ys]] eqn:E;
        try discriminate.
      injection H as ->.
      assert (Hin : l ∈ filter (λ l, l_is_active l = Some true)
                      (filter (λ l, l_id l = id) (listings db)))
        by (rewrite E; left).
      apply list_elem_of_filter in Hin as [Ha Hin].
      apply list_elem_of_filter in Hin as [Hid Hin]. by repeat split.
    + intros (Hl & Hid & Ha). rewrite (Hrow l Hl Hid).
      by rewrite decide_True.
  - intros l Hl Hid Hoff.
    assert (E : fetchListing uid id db = None)
      by (rewrite (Hrow l Hl Hid); by rewrite decide_False).
    split; [exact E |]. intros. rewrite E. unfold handleBooking.
    by destruct usr.
Qed.

(** The deactivated car is not loaded for [bob], its owner, while the hotel
    is loaded for a visitor who is not signed in. *)
Lemma fetchListing_active_only_witness :
  NoDup (l_id <$> listings Sample.db)
  ∧ fetchListing (Some Sample.bob) 11%N Sample.db = None
  ∧ fetchListing None 10%N Sample.db = Some Sample.hotel_listing.
Proof.
  assert (Hnd : NoDup (l_id <$> listings Sample.db)).
  { apply (bool_decide_unpack _). vm_compute. exact I. }
  destruct (fetchListing_active_only (Some Sample.bob) 11%N Sample.db Hnd)
    as [_ Hoff].
  destruct (fetchListing_active_only None 10%N Sample.db Hnd) as [Hon _].
  split; [exact Hnd |]. split.
  - apply (Hoff Sample.car_listing); [right; left | reflexivity | discriminate].
  - apply Hon. split; [left |]. split; reflexivity.
Defined.

Lemma handleBooking_insert (fallback : Date → option Z) (u : User)
    (l : listing) (d1 d2 : Date) (guests : option Z)
    (specialRequests : string) (new_id : uuid) (now : timestamptz)
    (db : database) :
  handleBooking fallback (Some u) (Some l) (Some d1) (Some d2) guests
                specialRequests new_id now db
  = match insert_booking (Some (u_id u)) new_id now
            (mkBookingValues (u_id u) (l_id l) d1 d2 guests
               (calculateTotalPrice fallback (Some l) (Some d1) (Some d2))
               (or_null specialRequests)) db with
    | Ok db' => (BookingSubmitted, db')
    | Err _ => (FailedToCreateBooking, db)
    end.
Proof. unfold handleBooking, run. by destruct (insert_booking _ _ _ _ _). Qed.

(** X4.  A booking request is stored exactly when somebody is signed in, a
    listing is loaded, both dates are chosen, [guests] is a number that fits
    an INTEGER, the total is a number that fits DECIMAL(10,2), the generated
    id is new, and the user and the listing still exist.  Nothing else
    decides: not the order of the dates, not the availability window, not
    [max_guests], not whether the listing is still active. *)
Theorem handleBooking_submitted_iff (fallback : Date → option Z)
    (usr : option User) (listing : option listing)
    (checkIn checkOut : option Date) (guests : option Z)
    (specialRequests : string) (new_id : uuid) (now : timestamptz)
    (db : database) :
  (handleBooking fallback usr listing checkIn checkOut guests
                 specialRequests new_id now db).1 = BookingSubmitted
  ↔ ∃ u l d1 d2 g total,
      usr = Some u ∧ listing = Some l
      ∧ checkIn = Some d1 ∧ checkOut = Some d2 ∧ guests = Some g
      ∧ fits_integer g = true
      ∧ to_numeric
          (calculateTotalPrice fallback (Some l) (Some d1) (Some d2))
        = Ok (Some total)
      ∧ (new_id ∉ b_id <$> bookings db)
      ∧ (u_id u ∈ au_id <$> auth_users db)
      ∧ (l_id l ∈ l_id <$> listings db).
Proof.
  split.
  - destruct usr as [u |], listing as [l |]; try discriminate.
    destruct checkIn as [d1 |], checkOut as [d2 |]; try discriminate.
    rewrite handleBooking_insert.
    destruct (insert_booking _ _ _ _ _) as [db' | e] eqn:E; [| discriminate].
    intros _. apply insert_booking_Ok in E
      as (g & total & Hg & Ht & Hi & _ & Hid & Hu & Hl & _). simpl in *.
    exists u, l, d1, d2, g, total. by repeat split.
  - intros (u & l & d1 & d2 & g & total & -> & -> & -> & -> & -> & Hi & Ht
            & Hid & Hu & Hl).
    rewrite handleBooking_insert.
    destruct (insert_booking _ _ _ _ _) as [db' | e] eqn:E; [reflexivity |].
    exfalso.
    assert (Hok : insert_booking (Some (u_id u)) new_id now
              (mkBookingValues (u_id u) (l_id l) d1 d2 (Some g)
                 (calculateTotalPrice fallback (Some l) (Some d1) (Some d2))
                 (or_null specialRequests)) db
              = Ok (with_bookings db
                      (bookings db
                       ++ [booking_row new_id now
                             (mkBookingValues (u_id u) (l_id l) d1 d2
                                (Some g)
                                (calculateTotalPrice fallback (Some l)
                                   (Some d1) (Some d2))
                                (or_null specialRequests)) g total]))).
    { apply insert_booking_Ok. exists g, total. by repeat split. }
    congruence.
Qed.

(** X5.  Whatever [handleBooking] is given, it touches no table but
    bookings, and bookings only by appending one row: a pending booking of
    the signed-in user for the loaded listing, with the computed total as
    the column stores it, without admin notes, stamped with the current
    time.  Unless the toast is the success toast, the database is exactly
    as before. *)
Theorem handleBooking_frame (fallback : Date → option Z)
    (usr : option User) (listing : option listing)
    (checkIn checkOut : option Date) (guests : option Z)
    (specialRequests : string) (new_id : uuid) (now : timestamptz)
    (db : database) :
  let r := handleBooking fallback usr listing checkIn checkOut guests
                         specialRequests new_id now db in
  auth_users r.2 = auth_users db
  ∧ profiles r.2 = profiles db
  ∧ user_roles r.2 = user_roles db
  ∧ listings r.2 = listings db
  ∧ match r.1 with
    | BookingSubmitted =>
        ∃ u l d1 d2 g total,
          usr = Some u ∧ listing = Some l
          ∧ checkIn = Some d1 ∧ checkOut = Some d2 ∧ guests = Some g
          ∧ to_numeric
              (calculateTotalPrice fallback (Some l) (Some d1) (Some d2))
            = Ok (Some total)
          ∧ bookings r.2
            = bookings db
              ++ [mkBooking new_id (u_id u) (l_id l) d1 d2 g total
                    pending (or_null specialRequests) None now now]
    | _ => r.2 = db
    end.
Proof.
  destruct usr as [u |], listing as [l |]; try by repeat split.
  destruct checkIn as [d1 |], checkOut as [d2 |]; try by repeat split.
  cbn zeta. rewrite handleBooking_insert.
  destruct (insert_booking _ _ _ _ _) as [db' | e] eqn:E;
    [| by repeat split].
  apply insert_booking_Ok in E as (g & total & Hg & Ht & _ & _ & _ & _ & _ & ->).
  simpl in Hg, Ht. subst guests. repeat split.
  exists u, l, d1, d2, g, total. by repeat split.
Qed.

(** X6.  While a date is missing the total is 0.  A stay that begins and
    ends on the same date is billed for no day: the total computed is 0
    times the price, and a booking submitted for it is stored with a total
    of 0. *)
Theorem calculateTotalPrice_same_date (fallback : Date → option Z)
    (l : listing) :
  (∀ listing checkIn checkOut,
     listing = None ∨ checkIn = None ∨ checkOut = None →
     calculateTotalPrice fallback listing checkIn checkOut = num_int 0)
  ∧ (∀ d t,
       getTime fallback d = Some t →
       calculateTotalPrice fallback (Some l) (Some d) (Some d)
       = num_mul (num_int 0) (num_decimal (l_price l)))
  ∧ (∀ (u : User) (d : Date) (guests : option Z) (specialRequests : string)
       (new_id : uuid) (now : timestamptz) (db : database),
       (handleBooking fallback (Some u) (Some l) (Some d) (Some d) guests
                      specialRequests new_id now db).1 = BookingSubmitted →
       ∃ row,
         bookings (handleBooking fallback (Some u) (Some l) (Some d) (Some d)
                                 guests specialRequests new_id now db).2
         = bookings db ++ [row]
         ∧ b_total_price row = 0).
Proof.
  split; [| split].
  - intros [?|] [?|] [?|] [H | [H | H]]; try discriminate; reflexivity.
  - intros d t Ht.
    rewrite (calculateTotalPrice_times fallback l d d t t Ht Ht).
    by rewrite Z.sub_diag.
  - intros u d guests sr new_id now db. rewrite handleBooking_insert.
    destruct (insert_booking _ _ _ _ _) as [db' | e] eqn:E; [| discriminate].
    intros _. apply insert_booking_Ok in E
      as (g & total & _ & Ht & _ & _ & _ & _ & _ & ->).
    eexists. split; [reflexivity |]. simpl in *.
    apply calculateTotalPrice_stored in Ht as (days & Hd & _ & ->).
    unfold dateDiffInDays in Hd.
    destruct (getTime fallback d) as [t |]; [| discriminate].
    injection Hd as <-. by rewrite Z.sub_diag.
Qed.

(** [alice] asks for the hotel from 2024-01-01 to 2024-01-01: the request
    is submitted with a total of 0. *)
Lemma calculateTotalPrice_same_date_witness :
  ∃ row,
    bookings (handleBooking Sample.rejects_other_strings
                (Some Sample.alice_session) (Some Sample.hotel_listing)
                (Some (Sample.jan 1)) (Some (Sample.jan 1)) (Some 2)
                EmptyString 23%N 100 Sample.db).2
    = bookings Sample.db ++ [row]
    ∧ b_total_price row = 0.
Proof.
  apply (proj2 (proj2 (calculateTotalPrice_same_date
                         Sample.rejects_other_strings Sample.hotel_listing))
           Sample.alice_session (Sample.jan 1) (Some 2) EmptyString 23%N 100
           Sample.db).
  reflexivity.
Defined.

(** ** The my-bookings page *)

#[global] Instance newest_booking_first_trans : Transitive newest_booking_first.
Proof. unfold newest_booking_first. intros a b c. lia. Qed.
#[global] Instance newest_booking_first_total : Total newest_booking_first.
Proof. unfold newest_booking_first. intros a b. lia. Qed.

Lemma bookings_select_policy_own (db : database) (b : booking) :
  bookings_select_policy db (Some (b_user_id b)) b = true.
Proof.
  unfold bookings_select_policy. by rewrite bool_decide_eq_true_2.
Qed.

Lemma fetchBookings_rows (usr : User) (db : database) :
  (fetchBookings usr db).*1
  ≡ₚ filter (λ b, b_user_id b = u_id usr) (bookings db).
Proof.
  unfold fetchBookings. rewrite <- list_fmap_compose.
  rewrite list_fmap_id, merge_sort_Permutation.
  rewrite list_filter_filter_l; [reflexivity |].
  intros b <-. apply bookings_select_policy_own.
Qed.

Lemma fetchBookings_elem (usr : User) (db : database) (b : booking)
    (e : option booking_listing) :
  (b, e) ∈ fetchBookings usr db ↔
  b ∈ bookings db ∧ b_user_id b = u_id usr
  ∧ e = embedded_listing db (Some (u_id usr)) b.
Proof.
  unfold fetchBookings. rewrite list_elem_of_fmap.
  setoid_rewrite merge_sort_Permutation.
  rewrite list_filter_filter_l
    by (intros x <-; apply bookings_select_policy_own).
  setoid_rewrite list_elem_of_filter. split.
  - intros (x & [= -> ->] & Hu & Hx). by repeat split.
  - intros (Hb & Hu & ->). by exists b.
Qed.

Lemma fetchBookings_sorted_rows (usr : User) (db : database) :
  (fetchBookings usr db).*1
  = merge_sort newest_booking_first
      (filter (λ b, b_user_id b = u_id usr)
         (filter (λ b, bookings_select_policy db (Some (u_id usr)) b = true)
            (bookings db))).
Proof.
  unfold fetchBookings. rewrite <- list_fmap_compose. apply list_fmap_id.
Qed.

(** X7.  The my-bookings page shows exactly the bookings the signed-in user
    requested, each once, newest first; no booking of anybody else is in
    the list, whatever the user's role. *)
Theorem fetchBookings_own_newest_first (usr : User) (db : database) :
  (fetchBookings usr db).*1
  ≡ₚ filter (λ b, b_user_id b = u_id usr) (bookings db)
  ∧ StronglySorted newest_booking_first (fetchBookings usr db).*1
  ∧ (∀ b e, (b, e) ∈ fetchBookings usr db →
            b ∈ bookings db ∧ b_user_id b = u_id usr)
  ∧ (∀ b, b ∈ bookings db →
          (b ∈ (fetchBookings usr db).*1 ↔ b_user_id b = u_id usr)).
Proof.
  split; [apply fetchBookings_rows |]. split; [| split].
  - rewrite fetchBookings_sorted_rows.
    apply StronglySorted_merge_sort; apply _.
  - intros b e (Hb & Hu & _)%fetchBookings_elem. by split.
  - intros b Hb. rewrite fetchBookings_rows, list_elem_of_filter. tauto.
Qed.

Lemma listings_select_policy_false (db : database) (p : uuid) (l : listing) :
  l_is_active l ≠ Some true →
  l_owner_id l ≠ p →
  get_user_role db p ≠ Some admin →
  listings_select_policy db (Some p) l = false.
Proof.
  intros Ha Ho Hr. unfold listings_select_policy.
  rewrite (bool_decide_eq_false_2 _ Ha).
  rewrite (bool_decide_eq_false_2 (Some p = Some (l_owner_id l)))
    by congruence.
  destruct (has_role db (Some p) admin) eqn:E; [| reflexivity].
  by apply get_user_role_admin in E.
Qed.

Lemma embedded_listing_unique (db : database) (uid : option uuid)
    (b : booking) (l : listing) :
  NoDup (l_id <$> listings db) →
  l ∈ listings db → l_id l = b_listing_id b →
  embedded_listing db uid b
  = if listings_select_policy db uid l
    then Some (mkBookingListing (l_id l) (l_title l) (l_type l)
                                (l_location l) (l_image_url l))
    else None.
Proof.
  intros Hnd Hl Hid. unfold embedded_listing.
  rewrite (filter_comm (λ x, l_id x = b_listing_id b)), <- Hid.
  rewrite (filter_key_unique l_id _ l Hnd Hl), filter_cons, filter_nil.
  destruct (decide (listings_select_policy db uid l = true)) as [E | E].
  - by rewrite E.
  - apply not_true_is_false in E. by rewrite E.
Qed.

(** X8.  A row of the my-bookings page carries the id, title, type,
    location and image of its listing as long as the user may see the
    listing (it is active, or theirs, or they are an admin).  When the
    listing has been deactivated and the user is neither its owner nor an
    admin, the row comes back with [listing] null. *)
Theorem fetchBookings_embedded_listing (usr : User) (db : database)
    (b : booking) (e : option booking_listing) (l : listing) :
  NoDup (l_id <$> listings db) →
  (b, e) ∈ fetchBookings usr db →
  l ∈ listings db →
  l_id l = b_listing_id b →
  (l_is_active l = Some true ∨ l_owner_id l = u_id usr
   ∨ get_user_role db (u_id usr) = Some admin →
   e = Some (mkBookingListing (l_id l) (l_title l) (l_type l)
                              (l_location l) (l_image_url l)))
  ∧ (l_is_active l ≠ Some true → l_owner_id l ≠ u_id usr →
     get_user_role db (u_id usr) ≠ Some admin →
     e = None).
Proof.
  intros Hnd (_ & _ & ->)%fetchBookings_elem Hl Hid.
  rewrite (embedded_listing_unique db _ b l Hnd Hl Hid). split.
  - intros Hsee.
    assert (E : listings_select_policy db (Some (u_id usr)) l = true).
    { destruct Hsee as [Ha | [<- | Hr]].
      - by apply listings_select_policy_active.
      - apply listings_select_policy_owner.
      - by apply listings_select_policy_admin. }
    by rewrite E.
  - intros Ha Ho Hr. by rewrite listings_select_policy_false.
Qed.

(** [alice] asked for the car of [bob] before he deactivated it: her row
    for it has no listing any more, while her row for the hotel has one. *)
Lemma fetchBookings_embedded_listing_witness :
  (Sample.car_booking, None)
    ∈ fetchBookings Sample.alice_session Sample.db_with_car_booking
  ∧ (Sample.pending_booking,
     Some (mkBookingListing 10%N "Sea View" hotel "Karachi" None))
    ∈ fetchBookings Sample.alice_session Sample.db_with_car_booking.
Proof.
  assert (Hnd : NoDup (l_id <$> listings Sample.db_with_car_booking)).
  { apply (bool_decide_unpack _). vm_compute. exact I. }
  split.
  - assert (Hrow : (Sample.car_booking,
                    embedded_listing Sample.db_with_car_booking
                      (Some Sample.alice) Sample.car_booking)
                   ∈ fetchBookings Sample.alice_session
                       Sample.db_with_car_booking).
    { apply fetchBookings_elem. split; [| by split].
      do 3 right. left. }
    destruct (fetchBookings_embedded_listing Sample.alice_session
                Sample.db_with_car_booking Sample.car_booking _
                Sample.car_listing Hnd Hrow) as [_ Hnull];
      [right; left | reflexivity |].
    rewrite Hnull in Hrow; [exact Hrow | discriminate | discriminate |].
    vm_compute. discriminate.
  - assert (Hrow : (Sample.pending_booking,
                    embedded_listing Sample.db_with_car_booking
                      (Some Sample.alice) Sample.pending_booking)
                   ∈ fetchBookings Sample.alice_session
                       Sample.db_with_car_booking).
    { apply fetchBookings_elem. split; [| by split].
      right. left. }
    destruct (fetchBookings_embedded_listing Sample.alice_session
                Sample.db_with_car_booking Sample.pending_booking _
                Sample.hotel_listing Hnd Hrow) as [Hsome _];
      [left | reflexivity |].
    rewrite Hsome in Hrow; [exact Hrow | by left].
Defined.

(** X9.  A booking that [handleBooking] has submitted is on the
    my-bookings page of the user who made it, pending and with the total
    that was computed, and on nobody else's. *)
Theorem handleBooking_then_fetchBookings (fallback : Date → option Z)
    (u : User) (l : listing) (d1 d2 : Date) (guests : option Z)
    (specialRequests : string) (new_id : uuid) (now : timestamptz)
    (db db' : database) :
  handleBooking fallback (Some u) (Some l) (Some d1) (Some d2) guests
                specialRequests new_id now db = (BookingSubmitted, db') →
  ∃ g total row,
    guests = Some g
    ∧ to_numeric (calculateTotalPrice fallback (Some l) (Some d1) (Some d2))
      = Ok (Some total)
    ∧ row = mkBooking new_id (u_id u) (l_id l) d1 d2 g total pending
              (or_null specialRequests) None now now
    ∧ row ∈ (fetchBookings u db').*1
    ∧ (∀ u', u_id u' ≠ u_id u → row ∉ (fetchBookings u' db').*1).
Proof.
  intros H. apply handleBooking_submitted, insert_booking_Ok in H
    as (g & total & Hg & Ht & _ & _ & _ & _ & _ & ->). simpl in Hg, Ht.
  eexists g, total, _. split; [exact Hg |]. split; [exact Ht |].
  split; [reflexivity |]. split.
  - rewrite fetchBookings_rows. apply list_elem_of_filter.
    split; [reflexivity |]. simpl. apply elem_of_app. right. left.
  - intros u' Hu'. rewrite fetchBookings_rows, list_elem_of_filter.
    simpl. intros [Heq _]. by apply Hu'.
Qed.

(** [alice] books two nights at the hotel and finds the request among her
    bookings. *)
Lemma handleBooking_then_fetchBookings_witness :
  ∃ row,
    row ∈ (fetchBookings Sample.alice_session
             (handleBooking Sample.rejects_other_strings
                (Some Sample.alice_session)
                (Some Sample.hotel_listing) (Some (Sample.jan 1))
                (Some (Sample.jan 3)) (Some 2) EmptyString 23%N 100
                Sample.db).2).*1
    ∧ b_id row = 23%N ∧ b_status row = pending
    ∧ b_total_price row = dollars 200.
Proof.
  destruct (handleBooking_then_fetchBookings Sample.rejects_other_strings
              Sample.alice_session
              Sample.hotel_listing (Sample.jan 1) (Sample.jan 3) (Some 2)
              EmptyString 23%N 100 Sample.db _ eq_refl)
    as (g & total & row & _ & Ht & Hrow & Hin & _).
  exists row. split; [exact Hin |]. rewrite Hrow.
  injection Ht as <-. by repeat split.
Defined.

(** [alice] sees her two bookings, the newer one first, and not the one of
    [carol]. *)
Lemma fetchBookings_own_newest_first_witness :
  (fetchBookings Sample.alice_session Sample.db).*1
  = [Sample.pending_booking; Sample.accepted_booking]
  ∧ (Sample.admin_booking ∉ (fetchBookings Sample.alice_session Sample.db).*1).
Proof.
  split; [reflexivity |].
  intros H.
  apply (proj2 (proj2 (proj2
           (fetchBookings_own_newest_first Sample.alice_session Sample.db)))
           Sample.admin_booking) in H; [discriminate |].
  do 2 right. left.
Defined.

(** ** The dashboard *)

Lemma NoDup_fmap_key_eq {A K : Type} (f : A → K) (l : list A) (x y : A) :
  NoDup (f <$> l) → x ∈ l → y ∈ l → f x = f y → x = y.
Proof.
  induction l as [| z l IH]; intros Hnd Hx Hy Hf;
    [by apply elem_of_nil in Hx |].
  rewrite fmap_cons in Hnd. apply NoDup_cons in Hnd as [Hz Hnd].
  apply elem_of_cons in Hx as [-> | Hx], Hy as [-> | Hy].
  - reflexivity.
  - exfalso. apply Hz. rewrite Hf. by apply list_elem_of_fmap_2.
  - exfalso. apply Hz. rewrite <- Hf. by apply list_elem_of_fmap_2.
  - by apply IH.
Qed.

Lemma Forall2_fmap_same {A B : Type} (P : A → B → Prop) (g : A → B)
    (l : list A) :
  (∀ x, x ∈ l → P x (g x)) → Forall2 P l (g <$> l).
Proof.
  induction l as [| x l IH]; intros H; [constructor |].
  rewrite fmap_cons. constructor; [apply H; left |].
  apply IH. intros y Hy. apply H. by right.
Qed.

(** X10.  Accepting or rejecting never adds or removes a booking and never
    touches another table.  Row by row, it leaves id, requester, listing,
    dates, guests, total price, special requests, admin notes and creation
    time as they were; a row is either untouched, or it is the booking that
    was named, the caller passes the UPDATE policies for it, and it now has
    the new status and the current time as its update time. *)
Theorem handleBookingAction_frame (uid : option uuid) (bookingId : uuid)
    (status : decision) (now : timestamptz) (db : database) :
  let r := handleBookingAction uid bookingId status now db in
  r.1 = None
  ∧ auth_users r.2 = auth_users db
  ∧ profiles r.2 = profiles db
  ∧ user_roles r.2 = user_roles db
  ∧ listings r.2 = listings db
  ∧ Forall2
      (λ b b',
         b_id b' = b_id b ∧ b_user_id b' = b_user_id b
         ∧ b_listing_id b' = b_listing_id b
         ∧ b_check_in b' = b_check_in b ∧ b_check_out b' = b_check_out b
         ∧ b_guests b' = b_guests b ∧ b_total_price b' = b_total_price b
         ∧ b_special_requests b' = b_special_requests b
         ∧ b_admin_notes b' = b_admin_notes b
         ∧ b_created_at b' = b_created_at b
         ∧ (b' = b
            ∨ (b_id b = bookingId
               ∧ bookings_update_policy db uid b = true
               ∧ b_status b' = decision_status status
               ∧ b_updated_at b' = now)))
      (bookings db) (bookings r.2).
Proof.
  cbn zeta. rewrite handleBookingAction_effect. simpl.
  repeat (split; [reflexivity |]).
  apply Forall2_fmap_same. intros b _.
  case_bool_decide as Hid; simpl; [| repeat split; by left].
  destruct (bookings_update_policy db uid b) eqn:E; simpl;
    [| repeat split; by left].
  repeat split; first [reflexivity | right; by repeat split].
Qed.

(** X11.  When an admin or the owner of the listing decides a pending
    booking on the dashboard, the request goes through without an error and
    the booking, and only this one, gets the chosen status and the current
    update time.  Loaded again, the booking shows no buttons: for nobody
    does the dashboard send a second decision on it. *)
Theorem Dashboard_decide_pending (usr : User) (userRole : option app_role)
    (shown : booking) (status : decision) (now : timestamptz)
    (db : database) :
  userRole = Some admin ∨ userRole = Some subadmin →
  NoDup (b_id <$> bookings db) →
  shown ∈ bookings db →
  b_status shown = pending →
  bookings_update_policy db (Some (u_id usr)) shown = true →
  let decided :=
    update_updated_at_column now (set_status (decision_status status) shown)
  in
  ∃ db',
    Dashboard_decide (Some usr) userRole shown status now db
    = (Some None, db')
    ∧ decided ∈ bookings db'
    ∧ (∀ b, b ∈ bookings db' →
            if decide (b_id b = b_id shown) then b = decided
            else b ∈ bookings db)
    ∧ b_status decided ≠ pending
    ∧ (∀ usr' userRole' status' now',
         Dashboard_decide usr' userRole' decided status' now' db'
         = (None, db')).
Proof.
  intros Hrole Hnd Hshown Hpending Hpolicy decided.
  set (g := λ b, if bool_decide (b_id b = b_id shown)
                    && bookings_update_policy db (Some (u_id usr)) b
                 then update_updated_at_column now
                        (set_status (decision_status status) b)
                 else b).
  assert (Hg : g shown = decided).
  { unfold g. by rewrite bool_decide_eq_true_2, Hpolicy. }
  exists (with_bookings db (g <$> bookings db)).
  split; [| split; [| split; [| split]]].
  - unfold Dashboard_decide, action_buttons_rendered.
    assert (Hgate : negb (bool_decide (userRole = Some admin))
                    && negb (bool_decide (userRole = Some subadmin)) = false)
      by (destruct Hrole as [-> | ->]; reflexivity).
    rewrite Hgate, (bool_decide_eq_true_2 _ Hpending).
    by rewrite handleBookingAction_effect.
  - simpl. rewrite <- Hg. by apply list_elem_of_fmap_2.
  - simpl. intros b' (b & -> & Hb)%list_elem_of_fmap.
    assert (Hid : b_id (g b) = b_id b).
    { unfold g. by destruct (_ && _). }
    destruct (decide (b_id (g b) = b_id shown)) as [E | E].
    + rewrite Hid in E.
      by rewrite (NoDup_fmap_key_eq b_id _ b shown Hnd Hb Hshown E).
    + rewrite Hid in E. unfold g.
      by rewrite (bool_decide_eq_false_2 _ E).
  - by destruct status.
  - intros usr' userRole' status' now'.
    unfold Dashboard_decide, action_buttons_rendered.
    rewrite (bool_decide_eq_false_2 (b_status decided = pending))
      by (by destruct status).
    destruct usr'; [| reflexivity]. by destruct (negb _ && negb _).
Qed.

(** [bob] accepts the pending request for his hotel. *)
Lemma Dashboard_decide_pending_witness :
  ∃ db',
    Dashboard_decide (Some Sample.bob_session) (Some subadmin)
      Sample.pending_booking decide_accepted 100 Sample.db
    = (Some None, db')
    ∧ update_updated_at_column 100 (set_status accepted Sample.pending_booking)
      ∈ bookings db'.
Proof.
  destruct (Dashboard_decide_pending Sample.bob_session (Some subadmin)
              Sample.pending_booking decide_accepted 100 Sample.db)
    as (db' & Hrun & Hin & _).
  - by right.
  - apply (bool_decide_unpack _). vm_compute. exact I.
  - right. left.
  - reflexivity.
  - reflexivity.
  - exists db'. by split.
Defined.

(** "Total Revenue" is computed from the total prices alone, in the order
    of the rows. *)
Lemma revenue_prices (a : number) (bs : list booking) :
  foldl (λ sum b, num_add sum (num_decimal (b_total_price b))) a bs
  = foldl (λ sum x, num_add sum (num_decimal x)) a (b_total_price <$> bs).
Proof. revert a. induction bs as [| b bs IH]; intros a; simpl; auto. Qed.

(** X12.  On the dashboard the number of pending bookings never exceeds the
    number of bookings, and a failed bookings query gives zeros.  "Total
    Revenue" adds the total price of every booking it is given, in the
    order of the rows: one more booking is one more addend whatever its
    status, pending and rejected ones included, and the sum computed is the
    same for two lists of bookings with the same total prices. *)
Theorem fetchDashboardData_stats_bounds
    (listingsData : option (list listing))
    (bookingsData : option (list booking)) :
  let stats := fetchDashboardData_stats listingsData bookingsData in
  let revenue_of bs :=
    totalRevenue (fetchDashboardData_stats listingsData (Some bs)) in
  (pendingBookings stats ≤ totalBookings stats)%nat
  ∧ (bookingsData = None →
     totalBookings stats = 0%nat ∧ pendingBookings stats = 0%nat
     ∧ totalRevenue stats = num_int 0)
  ∧ revenue_of [] = num_int 0
  ∧ (∀ bs b,
       revenue_of (bs ++ [b])
       = num_add (revenue_of bs) (num_decimal (b_total_price b)))
  ∧ (∀ bs bs',
       b_total_price <$> bs = b_total_price <$> bs' →
       revenue_of bs = revenue_of bs').
Proof.
  cbn zeta. split; [| split; [| split; [| split]]].
  - destruct bookingsData as [bs |]; simpl; [apply length_filter | lia].
  - by intros ->.
  - reflexivity.
  - intros bs b. simpl. by rewrite foldl_app.
  - intros bs bs' H. simpl. by rewrite !revenue_prices, H.
Qed.

(** The sample bookings are billed 200.00, 100.00 and 100.00; the revenue
    is computed as ((0 + 200.00) + 100.00) + 100.00, and as the same sum
    once all of them are rejected. *)
Lemma fetchDashboardData_stats_bounds_witness :
  totalRevenue (fetchDashboardData_stats None (Some (bookings Sample.db)))
  = num_add
      (num_add (num_add (num_int 0) (num_decimal (dollars 200)))
               (num_decimal (dollars 100)))
      (num_decimal (dollars 100))
  ∧ totalRevenue
      (fetchDashboardData_stats None
         (Some (set_status rejected <$> bookings Sample.db)))
    = totalRevenue (fetchDashboardData_stats None (Some (bookings Sample.db))).
Proof.
  split; [reflexivity |].
  apply (proj2 (proj2 (proj2 (proj2
           (fetchDashboardData_stats_bounds None None))))
           (set_status rejected <$> bookings Sample.db) (bookings Sample.db)).
  reflexivity.
Defined.


(** ** The home page *)

Lemma prefix_append (t s : string) :
  String.prefix t s = true ↔ ∃ post, s = t +:+ post.
Proof.
  revert s. induction t as [| a t IH]; intros s.
  - split; [intros _; by exists s | intros _; by destruct s].
  - destruct s as [| b s]; simpl.
    + split; [discriminate | intros [post H]; discriminate].
    + destruct (Ascii.ascii_dec a b) as [-> | Hne].
      * rewrite IH. split; intros [post H]; exists post.
        -- simpl. by rewrite H.
        -- simpl in H. by injection H.
      * split; [discriminate |]. intros [post H]. simpl in H.
        injection H as E _. by symmetry in E.
Qed.

Lemma includes_substring (s t : string) :
  includes s t = true ↔ ∃ pre post, s = pre +:+ t +:+ post.
Proof.
  induction s as [| c s IH].
  - cbn [includes]. rewrite orb_false_r, prefix_append. split.
    + intros [post H]. by exists EmptyString, post.
    + intros (pre & post & H). destruct pre; [by exists post | discriminate].
  - cbn [includes]. rewrite orb_true_iff, prefix_append, IH. split.
    + intros [[post H] | (pre & post & H)].
      * by exists EmptyString, post.
      * exists (String c pre), post. simpl. by rewrite H.
    + intros (pre & post & H). destruct pre as [| c' pre].
      * left. by exists post.
      * right. injection H as _ H. by exists pre, post.
Qed.

Lemma StronglySorted_filter {A : Type} (R : relation A) (P : A → Prop)
    `{!∀ x, Decision (P x)} (l : list A) :
  StronglySorted R l → StronglySorted R (filter P l).
Proof.
  induction 1 as [| x l Hl IH Hx]; [constructor |].
  rewrite filter_cons. case_decide; [| assumption].
  constructor; [assumption |]. apply Forall_forall.
  intros y [_ Hy]%list_elem_of_filter. rewrite Forall_forall in Hx. auto.
Qed.

(** X14.  The search of the home page keeps a listing exactly when the
    lower-cased search term occurs in its lower-cased title or location and
    its type is the selected one (or 'all' is selected).  The listings keep
    their order, two terms with the same lower-case form find the same
    listings, and an empty term with 'all' shows every listing. *)
Theorem filteredListings_matches (toLowerCase : string → string)
    (ls : list listing) (searchTerm : string)
    (selectedType : option listing_type) :
  (∀ l, l ∈ filteredListings toLowerCase ls searchTerm selectedType ↔
        l ∈ ls
        ∧ ((∃ pre post, toLowerCase (l_title l)
                        = pre +:+ toLowerCase searchTerm +:+ post)
           ∨ (∃ pre post, toLowerCase (l_location l)
                          = pre +:+ toLowerCase searchTerm +:+ post))
        ∧ (selectedType = None ∨ selectedType = Some (l_type l)))
  ∧ filteredListings toLowerCase ls searchTerm selectedType `sublist_of` ls
  ∧ (∀ searchTerm',
       toLowerCase searchTerm' = toLowerCase searchTerm →
       filteredListings toLowerCase ls searchTerm' selectedType
       = filteredListings toLowerCase ls searchTerm selectedType)
  ∧ (toLowerCase searchTerm = EmptyString →
     filteredListings toLowerCase ls searchTerm None = ls).
Proof.
  split; [| split; [| split]].
  - intros l. unfold filteredListings. rewrite list_elem_of_filter.
    cbn zeta. rewrite andb_true_iff, !orb_true_iff, !includes_substring.
    rewrite !bool_decide_eq_true. split.
    + intros [[Hs Ht] Hl]. split; [assumption |]. split; [assumption |].
      destruct Ht as [Ht | Ht]; [by left | by right].
    + intros (Hl & Hs & Ht). split; [| assumption]. split; [assumption |].
      destruct Ht as [Ht | Ht]; [by left | by right].
  - apply sublist_filter.
  - intros searchTerm' E. unfold filteredListings. by rewrite E.
  - intros E. unfold filteredListings. rewrite E.
    induction ls as [| l ls IH]; [reflexivity |].
    rewrite filter_cons, IH. rewrite decide_True; [reflexivity |].
    cbn zeta. apply andb_true_iff. split; [| reflexivity].
    apply orb_true_iff. left. apply includes_substring.
    by exists EmptyString, (toLowerCase (l_title l)).
Qed.

(** Searching the sample listings for "SEA" finds the hotel "Sea View";
    narrowed to cars it finds nothing. *)
Lemma filteredListings_matches_witness :
  filteredListings Sample.lower (listings Sample.db) "SEA" None
  = [Sample.hotel_listing]
  ∧ filteredListings Sample.lower (listings Sample.db) "SEA" (Some car) = []
  ∧ filteredListings Sample.lower (listings Sample.db) "sea" None
    = filteredListings Sample.lower (listings Sample.db) "SEA" None.
Proof.
  split; [reflexivity |]. split; [reflexivity |].
  apply (proj1 (proj2 (proj2
           (filteredListings_matches Sample.lower (listings Sample.db)
              "SEA" None)))).
  reflexivity.
Defined.


(** ** The create-listing page *)

Lemma handleAddAmenity_list (trim : string → string)
    (amenities : list string) (newAmenity : string) :
  (handleAddAmenity trim amenities newAmenity).1
  = if decide (trim newAmenity ≠ EmptyString ∧ trim newAmenity ∉ amenities)
    then amenities ++ [trim newAmenity]
    else amenities.
Proof.
  unfold handleAddAmenity.
  destruct (decide (trim newAmenity ≠ EmptyString
                    ∧ trim newAmenity ∉ amenities)) as [[H1 H2] | H].
  - by rewrite (bool_decide_eq_false_2 _ H1), (bool_decide_eq_false_2 _ H2).
  - case_bool_decide as E1; [reflexivity |].
    case_bool_decide as E2; [reflexivity |]. exfalso. by apply H.
Qed.

(** X16.  The amenities of the form never hold the same tag twice and never
    hold an empty tag: adding and removing keep both properties (the list
    starts empty). *)
Theorem amenities_invariant (trim : string → string)
    (amenities : list string) (newAmenity amenityToRemove : string) :
  NoDup amenities →
  EmptyString ∉ amenities →
  NoDup (handleAddAmenity trim amenities newAmenity).1
  ∧ (EmptyString ∉ (handleAddAmenity trim amenities newAmenity).1)
  ∧ NoDup (handleRemoveAmenity amenityToRemove amenities)
  ∧ (EmptyString ∉ handleRemoveAmenity amenityToRemove amenities).
Proof.
  intros Hnd Hne. rewrite handleAddAmenity_list.
  split; [| split; [| split]].
  - case_decide as H; [| assumption]. destruct H. by apply NoDup_snoc.
  - case_decide as H; [| assumption]. destruct H as [H1 H2].
    intros [Hin | Hin%list_elem_of_singleton]%elem_of_app; [by apply Hne |].
    by apply H1.
  - by apply NoDup_filter.
  - intros [_ Hin]%list_elem_of_filter. by apply Hne.
Qed.

(** Adding "wifi" again to a list that holds it leaves the list without a
    duplicate. *)
Lemma amenities_invariant_witness :
  NoDup (handleAddAmenity id ["wifi"; "parking"]%string "wifi").1
  ∧ (handleAddAmenity id ["wifi"; "parking"]%string "wifi").1
    = ["wifi"; "parking"]%string.
Proof.
  split; [| reflexivity].
  apply (amenities_invariant id ["wifi"; "parking"]%string "wifi"
           EmptyString).
  - apply (bool_decide_unpack _). vm_compute. exact I.
  - apply (bool_decide_unpack _). vm_compute. exact I.
Defined.

(** X17.  Adding a tag puts its trimmed form into the list unless that form
    is empty; adding the same tag again changes nothing; removing a tag
    leaves no occurrence of it and keeps the other tags in their order; and
    removing a tag that was just added gives back the list as it was. *)
Theorem amenity_add_remove (trim : string → string)
    (amenities : list string) (newAmenity : string) :
  let added := (handleAddAmenity trim amenities newAmenity).1 in
  (trim newAmenity ≠ EmptyString → trim newAmenity ∈ added)
  ∧ (handleAddAmenity trim added newAmenity).1 = added
  ∧ (∀ a, a ∉ handleRemoveAmenity a amenities)
  ∧ (∀ a b, b ≠ a →
            (b ∈ handleRemoveAmenity a amenities ↔ b ∈ amenities))
  ∧ (∀ a, handleRemoveAmenity a amenities `sublist_of` amenities)
  ∧ (trim newAmenity ∉ amenities →
     handleRemoveAmenity (trim newAmenity) added = amenities).
Proof.
  cbn zeta. rewrite !handleAddAmenity_list.
  split; [| split; [| split; [| split; [| split]]]].
  - intros Hne. case_decide as H.
    + apply elem_of_app. right. left.
    + destruct (decide (trim newAmenity ∈ amenities)); [assumption |].
      exfalso. by apply H.
  - destruct (decide (trim newAmenity ≠ EmptyString
                      ∧ trim newAmenity ∉ amenities)) as [H | H].
    + rewrite decide_False; [reflexivity |]. intros [_ Hn]. apply Hn.
      apply elem_of_app. right. left.
    + by rewrite decide_False.
  - intros a [Ha _]%list_elem_of_filter. by apply Ha.
  - intros a b Hb. unfold handleRemoveAmenity.
    rewrite list_elem_of_filter. tauto.
  - intros a. apply sublist_filter.
  - intros Hnew. unfold handleRemoveAmenity.
    assert (Hkeep : filter (λ amenity, amenity ≠ trim newAmenity) amenities
                    = amenities).
    { clear -Hnew. induction amenities as [| x xs IH]; [reflexivity |].
      rewrite filter_cons, decide_True, IH; [reflexivity | |].
      - intros H. apply Hnew. by right.
      - intros ->. apply Hnew. left. }
    case_decide as H; [| exact Hkeep].
    rewrite filter_app, Hkeep, filter_cons, filter_nil.
    rewrite decide_False by (intros Hx; by apply Hx). apply app_nil_r.
Qed.

(** "pool" is added to and then removed from a list that did not hold it. *)
Lemma amenity_add_remove_witness :
  ("pool"%string ∉ ["wifi"; "parking"]%string)
  ∧ handleRemoveAmenity "pool"
      (handleAddAmenity id ["wifi"; "parking"]%string "pool").1
    = ["wifi"; "parking"]%string.
Proof.
  assert (H : "pool"%string ∉ ["wifi"; "parking"]%string).
  { apply (bool_decide_unpack _). vm_compute. exact I. }
  split; [exact H |].
  apply (proj2 (proj2 (proj2 (proj2 (proj2
           (amenity_add_remove id ["wifi"; "parking"]%string "pool")))))).
  exact H.
Defined.

(** Closes the cases of a page that return before any request is sent. *)
Ltac nothing_sent := simpl; repeat split; try (intros; discriminate).

(** X18.  The create-listing page touches no table but listings.  When it
    reports success, somebody with the role admin or subadmin was signed
    in, type, title, location and price were filled in, and exactly one row
    was appended: active, owned by the signed-in user, created and updated
    now.  With any other outcome the database is as before; a missing
    required field is reported as such before anything is sent. *)
Theorem CreateListing_frame (usr : option User) (userRole : option app_role)
    (fd : formData) (amenities : list string) (new_id : uuid)
    (now : timestamptz) (db : database) :
  let r := CreateListing usr userRole fd amenities new_id now db in
  auth_users r.2 = auth_users db
  ∧ profiles r.2 = profiles db
  ∧ user_roles r.2 = user_roles db
  ∧ bookings r.2 = bookings db
  ∧ match r.1 with
    | ListingCreated =>
        ∃ u type price,
          usr = Some u
          ∧ (userRole = Some admin ∨ userRole = Some subadmin)
          ∧ fd_type fd = Some type ∧ fd_price fd = Some price
          ∧ fd_title fd ≠ EmptyString ∧ fd_location fd ≠ EmptyString
          ∧ listings r.2
            = listings db
              ++ [mkListing new_id (u_id u) type (fd_title fd)
                    (or_null (fd_description fd)) price (fd_location fd)
                    (or_null (fd_image_url fd)) (amenities_or_null amenities)
                    (fd_available_from fd) (fd_available_to fd)
                    (fd_max_guests fd) (Some true) now now]
    | _ => r.2 = db
    end
  ∧ (∀ u, usr = Some u →
       userRole = Some admin ∨ userRole = Some subadmin →
       fd_type fd = None ∨ fd_title fd = EmptyString
       ∨ fd_location fd = EmptyString ∨ fd_price fd = None →
       r = (RequiredFieldsMissing, db)).
Proof.
  cbn zeta. unfold CreateListing.
  destruct usr as [u |]; [| nothing_sent].
  destruct (negb (bool_decide (userRole = Some admin))
            && negb (bool_decide (userRole = Some subadmin))) eqn:Hgate.
  { simpl. repeat split. intros u' _ [-> | ->]; discriminate. }
  assert (Hrole : userRole = Some admin ∨ userRole = Some subadmin).
  { apply andb_false_iff in Hgate as [H | H];
      apply negb_false_iff, bool_decide_eq_true in H;
      first [by left | by right]. }
  unfold handleSubmit.
  destruct (fd_type fd) as [type |] eqn:Etype; [| nothing_sent].
  destruct (fd_price fd) as [price |] eqn:Eprice; [| nothing_sent].
  destruct (bool_decide (fd_title fd = EmptyString)) eqn:Etitle;
    [nothing_sent |].
  destruct (bool_decide (fd_location fd = EmptyString)) eqn:Eloc;
    [nothing_sent |].
  apply bool_decide_eq_false in Etitle, Eloc.
  cbn [orb]. unfold run.
  destruct (insert_listing _ _ db) as [db' | e] eqn:E.
  - apply insert_listing_Ok in E as ->. simpl. repeat split.
    + exists u, type, price. by repeat split.
    + intros u' _ _ [H | [H | [H | H]]]; first [discriminate | contradiction].
  - simpl. repeat split.
    intros u' _ _ [H | [H | [H | H]]]; first [discriminate | contradiction].
Qed.

(** [carol] submits the lodge form: one active listing of hers is added. *)
Lemma CreateListing_frame_witness :
  (CreateListing (Some Sample.carol_session) (Some admin) Sample.lodge_form
                 [] 12%N 100 Sample.db).1 = ListingCreated
  ∧ CreateListing (Some Sample.carol_session) (Some admin)
      (mkFormData None "Hill Lodge" EmptyString "Murree" (Some (dollars 80))
                  EmptyString None None None)
      [] 12%N 100 Sample.db
    = (RequiredFieldsMissing, Sample.db).
Proof.
  split; [reflexivity |].
  apply (proj2 (proj2 (proj2 (proj2 (proj2
           (CreateListing_frame (Some Sample.carol_session) (Some admin)
              (mkFormData None "Hill Lodge" EmptyString "Murree"
                          (Some (dollars 80)) EmptyString None None None)
              [] 12%N 100 Sample.db))))) Sample.carol_session eq_refl).
  - by left.
  - by left.
Defined.

(** X19.  At the table, a listing can be inserted by its owner-to-be,
    whatever role that principal holds, and otherwise only by an admin: a
    caller who names somebody else as owner and is no admin, or who is not
    signed in, is refused with insufficient privilege and nothing is
    stored. *)
Theorem insert_listing_privilege (uid : option uuid) (row : listing)
    (db : database) :
  fits_numeric_10_2 (l_price row) = true →
  from_option fits_integer true (l_max_guests row) = true →
  (uid ≠ Some (l_owner_id row) → has_role db uid admin = false →
   run (insert_listing uid row) db = (Some insufficient_privilege, db))
  ∧ (uid = None →
     run (insert_listing uid row) db = (Some insufficient_privilege, db))
  ∧ (uid = Some (l_owner_id row) →
     l_id row ∉ l_id <$> listings db →
     l_owner_id row ∈ au_id <$> auth_users db →
     run (insert_listing uid row) db
     = (None, with_listings db (listings db ++ [row]))).
Proof.
  intros Hp Hg.
  assert (Hdenied : uid ≠ Some (l_owner_id row) →
            has_role db uid admin = false →
            run (insert_listing uid row) db
            = (Some insufficient_privilege, db)).
  { intros Ho Ha. unfold run, insert_listing, listings_write_policy.
    rewrite check_bind, Hp, Hg. cbn [andb].
    by rewrite check_bind, (bool_decide_eq_false_2 _ Ho), Ha. }
  split; [exact Hdenied |]. split.
  - intros ->. apply Hdenied; [discriminate | apply has_role_anonymous].
  - intros -> Hid Hfk. unfold run.
    by rewrite (insert_listing_own_row row db Hp Hg Hid Hfk).
Qed.

(** [alice], whose only role is [user], inserts a listing of her own at the
    table, but not one in the name of [bob]. *)
Lemma insert_listing_privilege_witness :
  get_user_role Sample.db Sample.alice = Some user
  ∧ (run (insert_listing (Some Sample.alice)
            (mkListing 12%N Sample.alice trip "Walk" None (dollars 10) "Hunza"
                       None None None None None (Some true) 100 100))
         Sample.db).1 = None
  ∧ run (insert_listing (Some Sample.alice)
           (mkListing 12%N Sample.bob trip "Walk" None (dollars 10) "Hunza"
                      None None None None None (Some true) 100 100))
        Sample.db
    = (Some insufficient_privilege, Sample.db).
Proof.
  split; [reflexivity |]. split.
  - rewrite (proj2 (proj2
               (insert_listing_privilege (Some Sample.alice)
                  (mkListing 12%N Sample.alice trip "Walk" None (dollars 10)
                     "Hunza" None None None None None (Some true) 100 100)
                  Sample.db eq_refl eq_refl)) eq_refl); [reflexivity | |].
    + apply (bool_decide_unpack _). vm_compute. exact I.
    + apply (bool_decide_unpack _). vm_compute. exact I.
  - apply (proj1 (insert_listing_privilege (Some Sample.alice)
                    (mkListing 12%N Sample.bob trip "Walk" None (dollars 10)
                       "Hunza" None None None None None (Some true) 100 100)
                    Sample.db eq_refl eq_refl)); [discriminate | reflexivity].
Defined.

(** X20.  A booking can be read by the principal who requested it, by the
    owner of its listing and by an admin, and by nobody else; a caller who
    is not signed in reads no booking. *)
Theorem bookings_select_policy_readers (db : database) (b : booking) :
  (∀ p, bookings_select_policy db (Some p) b = true ↔
        p = b_user_id b
        ∨ (∃ l, l ∈ listings db ∧ l_id l = b_listing_id b ∧ l_owner_id l = p)
        ∨ get_user_role db p = Some admin)
  ∧ bookings_select_policy db None b = false.
Proof.
  split.
  - intros p. unfold bookings_select_policy.
    rewrite !orb_true_iff, bool_decide_eq_true, owns_listing_of_spec,
      get_user_role_admin.
    split.
    + intros [[[= ->] | (l & Hl & Hid & [= Ho])] | Ha].
      * by left.
      * right. left. by exists l.
      * by do 2 right.
    + intros [-> | [(l & Hl & Hid & <-) | Ha]].
      * by do 2 left.
      * left. right. by exists l.
      * by right.
  - unfold bookings_select_policy. rewrite has_role_anonymous.
    rewrite orb_false_r. apply orb_false_iff. split; [reflexivity |].
    apply not_true_iff_false. rewrite owns_listing_of_spec.
    intros (l & _ & _ & H). discriminate.
Qed.

(** ** Provisioning and the dashboard listings *)

Lemma roles_of_snoc (db db' : database) (r : user_role) (q : uuid) :
  user_roles db' = user_roles db ++ [r] →
  roles_of db' q
  = roles_of db q ++ (if decide (ur_user_id r = q) then [ur_role r] else []).
Proof.
  intros E. unfold roles_of. rewrite E, filter_app, fmap_app. f_equal.
  rewrite filter_cons, filter_nil. by destruct (decide (ur_user_id r = q)).
Qed.

(** X21.  When [handle_new_user] succeeds, the new principal has exactly one
    more row in each of [profiles] and [user_roles]: a profile with the
    given e-mail and the given full name, or 'User' when none was given,
    and the role [user].  The effective role of the principal is then the
    role held before, if any, and [user] otherwise; nobody else's role
    changes, and bookings and listings are untouched.  Without an e-mail
    nothing is stored. *)
Theorem handle_new_user_provisions (NEW : auth_user)
    (profile_id role_id : uuid) (now : timestamptz) (db : database) :
  (∀ db', handle_new_user NEW profile_id role_id now db = Ok db' →
     ∃ email,
       au_email NEW = Some email
       ∧ profiles db'
         = profiles db
           ++ [mkProfile profile_id (au_id NEW)
                 (default "User"%string (au_full_name NEW)) email None
                 now now]
       ∧ user_roles db'
         = user_roles db ++ [mkUserRole role_id (au_id NEW) user now]
       ∧ get_user_role db' (au_id NEW)
         = Some (default user (get_user_role db (au_id NEW)))
       ∧ (∀ q, q ≠ au_id NEW → get_user_role db' q = get_user_role db q)
       ∧ listings db' = listings db
       ∧ bookings db' = bookings db
       ∧ auth_users db' = auth_users db)
  ∧ (au_email NEW = None →
     run (handle_new_user NEW profile_id role_id now) db
     = (Some not_null_violation, db)).
Proof.
  split.
  - intros db' (email & E & _ & _ & _ & _ & _ & ->)%handle_new_user_Ok.
    exists email. split; [assumption |].
    set (db' := mkDatabase _ _ _ _ _).
    set (r := mkUserRole role_id (au_id NEW) user now).
    assert (Hroles : ∀ q, roles_of db' q
              = roles_of db q
                ++ (if decide (au_id NEW = q) then [user] else []))
      by (intros q; by apply (roles_of_snoc db db' r)).
    repeat split.
    + apply get_user_role_Some. rewrite Hroles, decide_True by reflexivity.
      destruct (get_user_role db (au_id NEW)) as [old |] eqn:Eold; simpl.
      * apply get_user_role_Some in Eold as [Hin Hmin].
        split; [apply elem_of_app; by left |].
        intros r' [Hr' | ->%list_elem_of_singleton]%elem_of_app;
          [by apply Hmin | destruct old; simpl; lia].
      * apply get_user_role_None in Eold. rewrite Eold. simpl.
        split; [left |]. intros r' ->%list_elem_of_singleton. simpl. lia.
    + intros q Hq.
      assert (Hsame : roles_of db' q = roles_of db q).
      { rewrite Hroles, decide_False by congruence. apply app_nil_r. }
      destruct (get_user_role db q) as [rq |] eqn:Eq.
      * apply get_user_role_Some. rewrite Hsame. by apply get_user_role_Some.
      * apply get_user_role_None. rewrite Hsame. by apply get_user_role_None.
  - intros E. unfold run, handle_new_user. by rewrite E.
Qed.

(** [dave] signs up without a name: his profile is named 'User' and his
    effective role is [user]. *)
Lemma handle_new_user_provisions_witness :
  ∃ db',
    handle_new_user Sample.dave_account 33%N 45%N 100 Sample.db = Ok db'
    ∧ get_user_role db' Sample.dave = Some user
    ∧ last (profiles db')
      = Some (mkProfile 33%N Sample.dave "User" "dave@example.org" None
                        100 100).
Proof.
  destruct (handle_new_user Sample.dave_account 33%N 45%N 100 Sample.db)
    as [db' | e] eqn:E; [| vm_compute in E; discriminate].
  destruct (proj1 (handle_new_user_provisions Sample.dave_account 33%N 45%N
                     100 Sample.db) db' E)
    as (email & He & Hp & _ & Hr & _).
  exists db'. split; [reflexivity |]. split.
  - etrans; [exact Hr | reflexivity].
  - rewrite Hp, last_snoc. injection He as <-. reflexivity.
Defined.

(** X22.  On the dashboard a subadmin gets exactly the listings they own,
    active or not.  Somebody whom the page takes for an admin gets every
    listing when the database knows them as admin too, and otherwise only
    what the policies allow: the active listings and their own. *)
Theorem fetchDashboardData_listings_scope (usr : User) (db : database) :
  fetchDashboardData_listings usr (Some subadmin) db
  = filter (λ l, l_owner_id l = u_id usr) (listings db)
  ∧ (has_role db (Some (u_id usr)) admin = true →
     fetchDashboardData_listings usr (Some admin) db = listings db)
  ∧ (has_role db (Some (u_id usr)) admin = false →
     ∀ l, l ∈ fetchDashboardData_listings usr (Some admin) db ↔
          l ∈ listings db
          ∧ (l_is_active l = Some true ∨ l_owner_id l = u_id usr)).
Proof.
  unfold fetchDashboardData_listings. split; [| split].
  - rewrite bool_decide_eq_true_2 by reflexivity.
    apply list_filter_filter_l. intros l <-.
    apply listings_select_policy_owner.
  - intros Ha. rewrite bool_decide_eq_false_2 by discriminate.
    induction (listings db) as [| l ls IH]; [reflexivity |].
    rewrite filter_cons, IH. rewrite decide_True; [reflexivity |].
    unfold listings_select_policy. by rewrite Ha, orb_true_r.
  - intros Ha l. rewrite bool_decide_eq_false_2 by discriminate.
    rewrite list_elem_of_filter. unfold listings_select_policy.
    rewrite Ha, orb_false_r, orb_true_iff, !bool_decide_eq_true.
    split.
    + intros [[H | [= H]] Hl]; split; auto.
    + intros [Hl [H | H]]; split; auto. right. by rewrite H.
Qed.

(** [bob] finds both of his listings, the hotel and the deactivated car. *)
Lemma fetchDashboardData_listings_scope_witness :
  fetchDashboardData_listings Sample.bob_session (Some subadmin) Sample.db
  = [Sample.hotel_listing; Sample.car_listing]
  ∧ has_role Sample.db (Some Sample.carol) admin = true
  ∧ fetchDashboardData_listings Sample.carol_session (Some admin) Sample.db
    = listings Sample.db.
Proof.
  split; [reflexivity |]. split; [reflexivity |].
  apply (proj1 (proj2 (fetchDashboardData_listings_scope
                         Sample.carol_session Sample.db)) eq_refl).
Defined.
